(** * ChatEngine: the three conversation strategies of packages/core/src/ChatEngine.ts

    A shallow embedding of [SimpleChatEngine], [CondenseQuestionChatEngine]
    and [ContextChatEngine].  JavaScript arrays are mutable objects that are
    passed by reference, so the chat histories live in a store of arrays
    addressed by location; the engines hold a location in their
    [chatHistory] field.  Exceptions do not roll the store back.  The turns
    of one engine run one after the other, as its callers are required to
    arrange; a collaborator reads the array it is handed and does not write
    to it. *)

From Stdlib Require Import String Ascii.
From stdpp Require Import base option list gmap strings.

Open Scope string_scope.
Open Scope list_scope.

(** ** Data imported from ./LLM, ./Node, ./Response, ./Prompt and
       ./callbacks/CallbackManager *)

(** Modelled from the spec: the role tag of a message (LLM.ts is not part of
    the sources); "role: enum{system, user, assistant}". *)
Inductive MessageType := system | user | assistant.

#[global] Instance MessageType_eq_dec : EqDecision MessageType.
Proof. solve_decision. Defined.

(** Modelled from the spec: "Message: {role, content: text}". *)
Record ChatMessage := { content : string; role : MessageType }.

#[global] Instance ChatMessage_eq_dec : EqDecision ChatMessage.
Proof. solve_decision. Defined.

(** [ChatResponse] of ./LLM: the code only reads its [message] field. *)
Record ChatResponse := { message : ChatMessage }.

(** [Event] of ./callbacks/CallbackManager, as built at lines 137-141. *)
Record Event := { event_id : string; event_type : string; event_tags : list string }.

(** Modelled from the spec: a node is an "opaque content-bearing unit with an
    extractable text field" (Node.ts is not part of the sources). *)
Record TextNode := { node_id : string; text : string }.

(** A retrieved item; the relevance score is carried along and never
    inspected by the engines, so its type is left open. *)
Record NodeWithScore (Score : Type) := { node : TextNode; score : Score }.
Arguments node {Score} _.
Arguments score {Score} _.

(** Modelled from the spec: "Response: {text: string, sourceItems: ordered
    sequence of nodes (possibly empty)}". *)
Record Response := { response : string; sourceNodes : list TextNode }.

(** Modelled from the spec: the constructor of [Response] (Response.ts is not
    part of the sources).  The second argument is optional; without it the
    response carries the empty sequence of source nodes. *)
Definition new_Response (text : string) (nodes : option (list TextNode)) : Response :=
  {| response := text; sourceNodes := default [] nodes |}.

(** A JavaScript object literal with string values, e.g.
    [{ question: q, chat_history: h }]. *)
Abbreviation PromptInput := (gmap string string).

(** [SimplePrompt] of ./Prompt: a template is a function from its variables
    to the rendered text. *)
Definition SimplePrompt : Type := PromptInput -> string.

Definition newline : string := String (ascii_of_nat 10) EmptyString.

Definition role_name (r : MessageType) : string :=
  match r with
  | system => "system"
  | user => "user"
  | assistant => "assistant"
  end.

(** Modelled from the spec: [messagesToHistoryStr] of ./Prompt, "each message
    formatted as role: content, newline-joined". *)
Definition messagesToHistoryStr (messages : list ChatMessage) : string :=
  String.concat newline
    (map (fun m => role_name (role m) +:+ ": " +:+ content m) messages).

(** Thrown values. *)
Inductive exn := Error (msg : string).

(** ** The store and the effects of a method body *)

(** Arrays of messages are addressed by location. *)
Abbreviation loc := nat (only parsing).

(** What the engines ask of their collaborators, in the order of the calls.
    This log is an observation of the run and is never read by the code. *)
Inductive Call :=
| CallChat (messages : list ChatMessage) (parentEvent : option Event)
| CallPredict (prompt : SimplePrompt) (input : PromptInput)
| CallQuery (query : string)
| CallRetrieve (query : string) (parentEvent : option Event).

(** How a method body ends. *)
Inductive completion (A : Type) :=
| Normal (a : A)
| Throw (e : exn).
Arguments Normal {A} _.
Arguments Throw {A} _.

Section Runtime.
Context {W : Type}.

(** The state a method runs in: the receiver [this], the arrays, the state
    [ext] of the outside world (the services behind the gateways and the
    source of fresh identifiers) and the log of calls. *)
Record Store (Self : Type) := {
  this : Self;
  heap : gmap loc (list ChatMessage);
  ext : W;
  calls : list Call
}.
Arguments this {Self} _.
Arguments heap {Self} _.
Arguments ext {Self} _.
Arguments calls {Self} _.

(** The contents of the array at [l].  Every reference the code holds
    denotes an array; a location that holds none reads as the empty array. *)
Definition read {Self} (l : loc) (s : Store Self) : list ChatMessage :=
  default [] (heap s !! l).

(** The store after [this.f = v], [this] becoming [o]. *)
Definition assigned {Self} (o : Self) (s : Store Self) : Store Self :=
  {| this := o; heap := heap s; ext := ext s; calls := calls s |}.

(** The same store, seen by a method of the object [o]. *)
Definition enter {Self Self'} (o : Self') (s : Store Self) : Store Self' :=
  {| this := o; heap := heap s; ext := ext s; calls := calls s |}.

(** The store after [a.push(x)] on the array at [l]: that array grows by
    one at its end, in place. *)
Definition pushed {Self} (l : loc) (x : ChatMessage) (s : Store Self) : Store Self :=
  {| this := this s; heap := <[l := read l s ++ [x]]> (heap s);
     ext := ext s; calls := calls s |}.

(** The location of the next new array, and the store once it is there. *)
Definition next_loc {Self} (s : Store Self) : loc := fresh (dom (heap s)).

Definition allocated {Self} (s : Store Self) : Store Self :=
  {| this := this s; heap := <[next_loc s := []]> (heap s);
     ext := ext s; calls := calls s |}.

(** The store after the outside world has moved to [x]. *)
Definition moved {Self} (x : W) (s : Store Self) : Store Self :=
  {| this := this s; heap := heap s; ext := x; calls := calls s |}.

(** The store after the call [c] was served, the world being [x] then. *)
Definition called {Self} (c : Call) (x : W) (s : Store Self) : Store Self :=
  {| this := this s; heap := heap s; ext := x; calls := calls s ++ [c] |}.

Definition M (Self A : Type) : Type := Store Self -> Store Self * completion A.

Definition ret {Self A} (a : A) : M Self A := fun s => (s, Normal a).

Definition bind {Self A B} (m : M Self A) (k : A -> M Self B) : M Self B :=
  fun s =>
    match m s with
    | (s', Normal a) => k a s'
    | (s', Throw e) => (s', Throw e)
    end.

Definition throw {Self A} (e : exn) : M Self A := fun s => (s, Throw e).

(** Reading and assigning [this]. *)
Definition get_this {Self} : M Self Self := fun s => (s, Normal (this s)).

Definition set_this {Self} (o : Self) : M Self unit :=
  fun s => (assigned o s, Normal tt).

(** What a callee sees of the array it is handed. *)
Definition snapshot {Self} (l : loc) : M Self (list ChatMessage) :=
  fun s => (s, Normal (read l s)).

(** [a.push(x)] *)
Definition push {Self} (l : loc) (x : ChatMessage) : M Self unit :=
  fun s => (pushed l x s, Normal tt).

(** The array literal [[]]: a new, empty array. *)
Definition new_array {Self} : M Self loc :=
  fun s => (allocated s, Normal (next_loc s)).

(** An awaited call to a collaborator: the call is logged, the outside
    world moves on, and the promise is either fulfilled or rejected. *)
Definition await {Self A} (c : Call) (f : W -> W * completion A) : M Self A :=
  fun s => let (x, r) := f (ext s) in (called c x s, r).

(** A call that cannot fail (the identifier generator). *)
Definition draw {Self A} (f : W -> W * A) : M Self A :=
  fun s => let (x, a) := f (ext s) in (moved x s, Normal a).

(** A call into imported code that is handed no array and is not one of the
    gateways (the construction of a default collaborator): it may act on the
    outside world and it may throw. *)
Definition foreign {Self A} (f : W -> W * completion A) : M Self A :=
  fun s => let (x, r) := f (ext s) in (moved x s, r).
End Runtime.

Arguments Store : clear implicits.
Arguments M : clear implicits.
Arguments this {W Self} _.
Arguments heap {W Self} _.
Arguments ext {W Self} _.
Arguments calls {W Self} _.

#[global] Instance M_ret {W Self} : MRet (M W Self) := fun A a => ret a.
#[global] Instance M_bind {W Self} : MBind (M W Self) := fun A B k m => bind m k.
#[global] Instance M_throw {W Self} : MThrow exn (M W Self) := fun A e => throw e.

(** ** The collaborators *)

(** [LLM] of ./LLM (also the type of an [OpenAI] instance): the chat
    completion service.  It sees the contents of the array it is given. *)
Module LLM.
Record t (W : Type) := {
  achat : list ChatMessage -> option Event -> W -> W * completion ChatResponse
}.
Arguments achat {W} _ _ _ _.
End LLM.

(** The predictor held by a [ServiceContext]: text in, text out. *)
Module LLMPredictor.
Record t (W : Type) := {
  apredict : SimplePrompt -> PromptInput -> W -> W * completion string
}.
Arguments apredict {W} _ _ _ _.
End LLMPredictor.

Module ServiceContext.
Record t (W : Type) := { llmPredictor : LLMPredictor.t W }.
Arguments llmPredictor {W} _.
End ServiceContext.

Module BaseQueryEngine.
Record t (W : Type) := {
  aquery : string -> W -> W * completion Response
}.
Arguments aquery {W} _ _ _.
End BaseQueryEngine.

Module BaseRetriever.
Record t (W Score : Type) := {
  aretrieve : string -> option Event -> W -> W * completion (list (NodeWithScore Score))
}.
Arguments aretrieve {W Score} _ _ _ _.
End BaseRetriever.

(** The names ChatEngine.ts imports and whose definitions are in other files:
    the two prompt templates of ./Prompt, the call
    [serviceContextFromDefaults({})], the [OpenAI] constructor (its optional
    argument is the model name) and the identifier generator of the uuid
    package.  The two constructions run code of other files: they may act on
    the outside world and they may throw. *)
Class Imports (W : Type) := {
  defaultCondenseQuestionPrompt : SimplePrompt;
  contextSystemPrompt : SimplePrompt;
  serviceContextFromDefaults : W -> W * completion (ServiceContext.t W);
  new_OpenAI : option string -> W -> W * completion (LLM.t W);
  uuidv4 : W -> W * string
}.

(** ** The interface [ChatEngine] (lines 16-22) *)

Module ChatEngine.
Class t (W Self : Type) := {
  chatRepl : M W Self unit;
  achat : string -> option loc -> M W Self Response;
  reset : M W Self unit
}.
End ChatEngine.

(** ** [SimpleChatEngine] (lines 24-49) *)

Module SimpleChatEngine.
Section Class.
Context {W : Type} `{Imports W}.

Record t := { chatHistory : loc; llm : LLM.t W }.

(** The argument of the constructor: every field is optional. *)
Record init := { init_chatHistory : option loc; init_llm : option (LLM.t W) }.

(** lines 28-31; [A] is the receiver of the code that runs [new].  The right
    operand of [??] is evaluated only when the left one is absent. *)
Definition constructor {A} (i : option init) : M W A t :=
  h ← match i ≫= init_chatHistory with
      | Some l => mret l
      | None => new_array
      end;
  g ← match i ≫= init_llm with
      | Some g => mret g
      | None => foreign (new_OpenAI None)
      end;
  mret {| chatHistory := h; llm := g |}.

(** lines 33-35 *)
Definition chatRepl : M W t unit :=
  mthrow (Error "Method not implemented.").

(** lines 37-44; [m] is the parameter [message], [chatHistory'] the
    parameter [chatHistory]. *)
Definition achat (m : string) (chatHistory' : option loc) : M W t Response :=
  self ← get_this;
  let chatHistory' := default (chatHistory self) chatHistory' in
  push chatHistory' {| content := m; role := user |};;
  sent ← snapshot chatHistory';
  response ← await (CallChat sent None) (LLM.achat (llm self) sent None);
  push chatHistory' (message response);;
  self ← get_this;
  set_this {| chatHistory := chatHistory'; llm := llm self |};;
  mret (new_Response (content (message response)) None).

(** lines 46-48 *)
Definition reset : M W t unit :=
  h ← new_array;
  self ← get_this;
  set_this {| chatHistory := h; llm := llm self |}.
End Class.
Arguments t : clear implicits.
Arguments init : clear implicits.

#[global] Instance chat_engine {W} `{Imports W} : ChatEngine.t W (t W) :=
  {| ChatEngine.chatRepl := chatRepl; ChatEngine.achat := achat; ChatEngine.reset := reset |}.
End SimpleChatEngine.

(** ** [CondenseQuestionChatEngine] (lines 51-112) *)

Module CondenseQuestionChatEngine.
Section Class.
Context {W : Type} `{Imports W}.

Record t := {
  queryEngine : BaseQueryEngine.t W;
  chatHistory : loc;
  serviceContext : ServiceContext.t W;
  condenseMessagePrompt : SimplePrompt
}.

(** The argument of the constructor (lines 57-62).  The code guards
    [chatHistory] with [??] like the optional fields. *)
Record init := {
  init_queryEngine : BaseQueryEngine.t W;
  init_chatHistory : option loc;
  init_serviceContext : option (ServiceContext.t W);
  init_condenseMessagePrompt : option SimplePrompt
}.

(** lines 63-68 *)
Definition constructor {A} (i : init) : M W A t :=
  h ← match init_chatHistory i with
      | Some l => mret l
      | None => new_array
      end;
  sc ← match init_serviceContext i with
       | Some sc => mret sc
       | None => foreign serviceContextFromDefaults
       end;
  mret {| queryEngine := init_queryEngine i;
          chatHistory := h;
          serviceContext := sc;
          condenseMessagePrompt :=
            default defaultCondenseQuestionPrompt (init_condenseMessagePrompt i) |}.

(** lines 71-84 *)
Definition acondenseQuestion (chatHistory' : loc) (question : string) : M W t string :=
  messages ← snapshot chatHistory';
  let chatHistoryStr := messagesToHistoryStr messages in
  self ← get_this;
  let input : PromptInput :=
    {[ "question" := question; "chat_history" := chatHistoryStr ]} in
  await (CallPredict defaultCondenseQuestionPrompt input)
    (LLMPredictor.apredict (ServiceContext.llmPredictor (serviceContext self))
       defaultCondenseQuestionPrompt input).

(** lines 86-103 *)
Definition achat (m : string) (chatHistory' : option loc) : M W t Response :=
  self ← get_this;
  let chatHistory' := default (chatHistory self) chatHistory' in
  condensedQuestion ← acondenseQuestion chatHistory' m;
  self ← get_this;
  response' ← await (CallQuery condensedQuestion)
                (BaseQueryEngine.aquery (queryEngine self) condensedQuestion);
  push chatHistory' {| content := m; role := user |};;
  push chatHistory' {| content := response response'; role := assistant |};;
  mret response'.

(** lines 105-107 *)
Definition chatRepl : M W t unit :=
  mthrow (Error "Method not implemented.").

(** lines 109-111 *)
Definition reset : M W t unit :=
  h ← new_array;
  self ← get_this;
  set_this {| queryEngine := queryEngine self;
              chatHistory := h;
              serviceContext := serviceContext self;
              condenseMessagePrompt := condenseMessagePrompt self |}.
End Class.
Arguments t : clear implicits.
Arguments init : clear implicits.

#[global] Instance chat_engine {W} `{Imports W} : ChatEngine.t W (t W) :=
  {| ChatEngine.chatRepl := chatRepl; ChatEngine.achat := achat; ChatEngine.reset := reset |}.
End CondenseQuestionChatEngine.

(** ** [ContextChatEngine] (lines 114-175) *)

Module ContextChatEngine.
Section Class.
Context {W Score : Type} `{Imports W}.

Record t := {
  retriever : BaseRetriever.t W Score;
  chatModel : LLM.t W;
  chatHistory : loc
}.

Record init := {
  init_retriever : BaseRetriever.t W Score;
  init_chatModel : option (LLM.t W);
  init_chatHistory : option loc
}.

(** lines 124-127 *)
Definition constructor {A} (i : init) : M W A t :=
  g ← match init_chatModel i with
      | Some g => mret g
      | None => foreign (new_OpenAI (Some "gpt-3.5-turbo-16k"))
      end;
  h ← match init_chatHistory i with
      | Some l => mret l
      | None => new_array
      end;
  mret {| retriever := init_retriever i;
          chatModel := g;
          chatHistory := h |}.

(** lines 130-132 *)
Definition chatRepl : M W t unit :=
  mthrow (Error "Method not implemented.").

(** lines 147-154: the system message composed from the retrieved items. *)
Definition systemMessage (sourceNodesWithScore : list (NodeWithScore Score)) : ChatMessage :=
  {| content :=
       contextSystemPrompt
         {[ "context" :=
              String.concat (newline +:+ newline)
                (map (fun r => text (node r)) sourceNodesWithScore) ]};
     role := system |}.

(** lines 137-141: the event of one invocation, given its identifier. *)
Definition wrapperEvent (id : string) : Event :=
  {| event_id := id; event_type := "wrapper"; event_tags := ["final"] |}.

(** lines 134-170 *)
Definition achat (m : string) (chatHistory' : option loc) : M W t Response :=
  self ← get_this;
  let chatHistory' := default (chatHistory self) chatHistory' in
  id ← draw uuidv4;
  let parentEvent := wrapperEvent id in
  sourceNodesWithScore ←
    await (CallRetrieve m (Some parentEvent))
      (BaseRetriever.aretrieve (retriever self) m (Some parentEvent));
  let systemMessage := systemMessage sourceNodesWithScore in
  push chatHistory' {| content := m; role := user |};;
  messages ← snapshot chatHistory';
  self ← get_this;
  response ← await (CallChat (systemMessage :: messages) (Some parentEvent))
               (LLM.achat (chatModel self) (systemMessage :: messages) (Some parentEvent));
  push chatHistory' (message response);;
  self ← get_this;
  set_this {| retriever := retriever self;
              chatModel := chatModel self;
              chatHistory := chatHistory' |};;
  mret (new_Response (content (message response))
          (Some (map node sourceNodesWithScore))).

(** lines 172-174 *)
Definition reset : M W t unit :=
  h ← new_array;
  self ← get_this;
  set_this {| retriever := retriever self;
              chatModel := chatModel self;
              chatHistory := h |}.
End Class.
Arguments t : clear implicits.
Arguments init : clear implicits.

#[global] Instance chat_engine {W Score} `{Imports W} : ChatEngine.t W (t W Score) :=
  {| ChatEngine.chatRepl := chatRepl; ChatEngine.achat := achat; ChatEngine.reset := reset |}.
End ContextChatEngine.

(** ** Concrete collaborators, for running the engines on examples *)

Module Stubs.
(** The outside world counts the calls it has served. *)
Definition world : Type := nat.

Definition llm_says (reply : ChatMessage) : LLM.t world :=
  {| LLM.achat := fun _ _ x => (S x, Normal {| message := reply |}) |}.

Definition llm_down : LLM.t world :=
  {| LLM.achat := fun _ _ x => (S x, Throw (Error "rate limit")) |}.

Definition predictor_says (out : string) : ServiceContext.t world :=
  {| ServiceContext.llmPredictor :=
       {| LLMPredictor.apredict := fun _ _ x => (S x, Normal out) |} |}.

(** A predictor that answers with the rendered prompt. *)
Definition predictor_renders : ServiceContext.t world :=
  {| ServiceContext.llmPredictor :=
       {| LLMPredictor.apredict := fun p i x => (S x, Normal (p i)) |} |}.

Definition engine_says (answer : string) : BaseQueryEngine.t world :=
  {| BaseQueryEngine.aquery := fun _ x =>
       (S x, Normal {| response := answer; sourceNodes := [] |}) |}.

Definition engine_down : BaseQueryEngine.t world :=
  {| BaseQueryEngine.aquery := fun _ x => (S x, Throw (Error "timeout")) |}.

Definition retriever_finds (items : list (NodeWithScore nat)) : BaseRetriever.t world nat :=
  {| BaseRetriever.aretrieve := fun _ _ x => (S x, Normal items) |}.

Definition retriever_down : BaseRetriever.t world nat :=
  {| BaseRetriever.aretrieve := fun _ _ x => (S x, Throw (Error "index offline")) |}.

Definition var (name : string) (i : PromptInput) : string := default "" (i !! name).

#[global] Instance imports : Imports world :=
  {| defaultCondenseQuestionPrompt := fun i =>
       "Rewrite as a standalone question. History: " +:+ var "chat_history" i
         +:+ " Follow-up: " +:+ var "question" i;
     contextSystemPrompt := fun i => "Context: " +:+ var "context" i;
     serviceContextFromDefaults := fun x => (x, Normal (predictor_says "standalone"));
     new_OpenAI := fun _ x => (x, Normal (llm_says {| content := "ok"; role := assistant |}));
     uuidv4 := fun x => (x, "00000000-0000-4000-8000-000000000000") |}.

(** Imports whose default constructions fail, as when no credentials are
    configured. *)
Definition no_credentials : Imports world :=
  {| defaultCondenseQuestionPrompt := defaultCondenseQuestionPrompt;
     contextSystemPrompt := contextSystemPrompt;
     serviceContextFromDefaults := fun x => (x, Throw (Error "missing API key"));
     new_OpenAI := fun _ x => (x, Throw (Error "missing API key"));
     uuidv4 := uuidv4 |}.

Definition customPrompt : SimplePrompt := fun i => "Condense: " +:+ var "question" i.

Definition paris : TextNode :=
  {| node_id := "n1"; text := "Paris is the capital of France" |}.

(** A store with one array, at location 0. *)
Definition store {Self} (self : Self) (h : list ChatMessage) : Store world Self :=
  {| this := self; heap := {[ 0 := h ]}; ext := 0; calls := [] |}.

(** A store with two arrays, at locations 0 and 1. *)
Definition store2 {Self} (self : Self) (h0 h1 : list ChatMessage) : Store world Self :=
  {| this := self; heap := {[ 0 := h0; 1 := h1 ]}; ext := 0; calls := [] |}.

(** Engines whose History is the array at location 0. *)
Definition simple (g : LLM.t world) : SimpleChatEngine.t world :=
  {| SimpleChatEngine.chatHistory := 0; SimpleChatEngine.llm := g |}.

Definition condense (sc : ServiceContext.t world) (q : BaseQueryEngine.t world)
    (p : SimplePrompt) : CondenseQuestionChatEngine.t world :=
  {| CondenseQuestionChatEngine.queryEngine := q;
     CondenseQuestionChatEngine.chatHistory := 0;
     CondenseQuestionChatEngine.serviceContext := sc;
     CondenseQuestionChatEngine.condenseMessagePrompt := p |}.

Definition context (r : BaseRetriever.t world nat) (g : LLM.t world)
    : ContextChatEngine.t world nat :=
  {| ContextChatEngine.retriever := r;
     ContextChatEngine.chatModel := g;
     ContextChatEngine.chatHistory := 0 |}.
End Stubs.

(** ** Vocabulary of the statements *)

Section Vocabulary.
Context {W : Type}.

(** The History of an engine: the contents of the array its [chatHistory]
    field refers to. *)
Definition direct_history (s : Store W (SimpleChatEngine.t W)) : list ChatMessage :=
  read (SimpleChatEngine.chatHistory (this s)) s.

Definition condense_history (s : Store W (CondenseQuestionChatEngine.t W)) : list ChatMessage :=
  read (CondenseQuestionChatEngine.chatHistory (this s)) s.

Definition context_history {Score} (s : Store W (ContextChatEngine.t W Score)) : list ChatMessage :=
  read (ContextChatEngine.chatHistory (this s)) s.

(** The contract of the Completion Gateway: a fulfilled call yields a
    message of role assistant. *)
Definition completes_as_assistant (g : LLM.t W) : Prop :=
  forall msgs ev x x' r,
    LLM.achat g msgs ev x = (x', Normal r) -> role (message r) = assistant.

(** Two stores that hold the same arrays, face the same outside world and
    have logged the same calls. *)
Definition same_arrays {Self} (s1 s2 : Store W Self) : Prop :=
  (forall l, read l s1 = read l s2) /\ ext s1 = ext s2 /\ calls s1 = calls s2.

Definition no_system_message (h : list ChatMessage) : Prop :=
  Forall (fun x => role x <> system) h.

(** A caller that sends the messages [ms] to one engine, one turn after the
    other and without supplying a history, and collects the responses; the
    first turn that fails ends the conversation. *)
Fixpoint conversation {Self} `{ChatEngine.t W Self} (ms : list string)
    : M W Self (list Response) :=
  match ms with
  | [] => mret []
  | m :: ms' =>
      a ← ChatEngine.achat m None;
      rest ← conversation ms';
      mret (a :: rest)
  end.

(** The turns of a conversation as they are recorded: each message followed
    by the text of its response. *)
Definition transcript (ms : list string) (answers : list Response) : list ChatMessage :=
  concat (zip_with
            (fun m a => [{| content := m; role := user |};
                         {| content := response a; role := assistant |}])
            ms answers).

(** A collaborator that fulfils every call. *)
Definition llm_always_answers (g : LLM.t W) : Prop :=
  forall msgs ev x, exists x' r, LLM.achat g msgs ev x = (x', Normal r).

Definition predictor_always_answers (sc : ServiceContext.t W) : Prop :=
  forall p i x, exists x' q,
    LLMPredictor.apredict (ServiceContext.llmPredictor sc) p i x = (x', Normal q).

Definition engine_always_answers (qe : BaseQueryEngine.t W) : Prop :=
  forall q x, exists x' a, BaseQueryEngine.aquery qe q x = (x', Normal a).
End Vocabulary.

(** * Properties *)

(** [says r c] is the message [{ content: c, role: r }]. *)
Abbreviation says r c := {| content := c; role := r |}.

(** ** The store *)

Section StoreFacts.
Context {W Self : Type}.
Implicit Types (s : Store W Self) (l : loc) (x : ChatMessage).

Lemma this_assigned o s : this (assigned o s) = o.
Proof. reflexivity. Qed.
Lemma this_pushed l x s : this (pushed l x s) = this s.
Proof. reflexivity. Qed.
Lemma this_allocated s : this (allocated s) = this s.
Proof. reflexivity. Qed.
Lemma this_moved w s : this (moved w s) = this s.
Proof. reflexivity. Qed.
Lemma this_called c w s : this (called c w s) = this s.
Proof. reflexivity. Qed.

Lemma ext_assigned o s : ext (assigned o s) = ext s.
Proof. reflexivity. Qed.
Lemma ext_pushed l x s : ext (pushed l x s) = ext s.
Proof. reflexivity. Qed.
Lemma ext_allocated s : ext (allocated s) = ext s.
Proof. reflexivity. Qed.
Lemma ext_moved w s : ext (moved w s) = w.
Proof. reflexivity. Qed.
Lemma ext_called c w s : ext (called c w s) = w.
Proof. reflexivity. Qed.

Lemma calls_assigned o s : calls (assigned o s) = calls s.
Proof. reflexivity. Qed.
Lemma calls_pushed l x s : calls (pushed l x s) = calls s.
Proof. reflexivity. Qed.
Lemma calls_allocated s : calls (allocated s) = calls s.
Proof. reflexivity. Qed.
Lemma calls_moved w s : calls (moved w s) = calls s.
Proof. reflexivity. Qed.
Lemma calls_called c w s : calls (called c w s) = calls s ++ [c].
Proof. reflexivity. Qed.

Lemma read_assigned o l s : read l (assigned o s) = read l s.
Proof. reflexivity. Qed.
Lemma read_moved w l s : read l (moved w s) = read l s.
Proof. reflexivity. Qed.
Lemma read_called c w l s : read l (called c w s) = read l s.
Proof. reflexivity. Qed.

(** A push is seen through every reference to the array ... *)
Lemma read_pushed_eq l x s : read l (pushed l x s) = read l s ++ [x].
Proof. unfold read, pushed; simpl. by rewrite lookup_insert_eq. Qed.

(** ... and through no reference to another array. *)
Lemma read_pushed_ne l l' x s : l <> l' -> read l' (pushed l x s) = read l' s.
Proof. intros Hne. unfold read, pushed; simpl. by rewrite lookup_insert_ne. Qed.

Lemma next_loc_fresh s : heap s !! next_loc s = None.
Proof. apply not_elem_of_dom, is_fresh. Qed.

(** A new array is empty, and no array that was there is touched. *)
Lemma read_next_loc s : read (next_loc s) s = [].
Proof. unfold read. by rewrite next_loc_fresh. Qed.

Lemma read_allocated l s : read l (allocated s) = read l s.
Proof.
  unfold read at 1, allocated; simpl.
  destruct (decide (next_loc s = l)) as [<- | Hne].
  - rewrite lookup_insert_eq. by rewrite read_next_loc.
  - by rewrite lookup_insert_ne.
Qed.
End StoreFacts.

Create Rewrite HintDb store.

#[global] Hint Rewrite
  @this_assigned @this_pushed @this_allocated @this_moved @this_called
  @ext_assigned @ext_pushed @ext_allocated @ext_moved @ext_called
  @calls_assigned @calls_pushed @calls_allocated @calls_moved @calls_called
  @read_assigned @read_moved @read_called @read_pushed_eq @read_allocated
  : store.

(** Unfolds the sequencing of a method body down to the store updates. *)
Ltac run :=
  cbv beta iota zeta delta
    [mbind M_bind bind mret M_ret ret mthrow M_throw throw
     get_this set_this snapshot push new_array await draw foreign];
  autorewrite with store.

(** ** What one call of each method does, step by step *)

Section DirectRuns.
Context {W : Type} `{Imports W}.
Import SimpleChatEngine.
Implicit Types (s : Store W (t W)) (m : string) (o : option loc).

Lemma direct_achat_run s m o :
  achat m o s =
  let l := default (chatHistory (this s)) o in
  let sent := read l s ++ [says user m] in
  let s1 := pushed l (says user m) s in
  match LLM.achat (llm (this s)) sent None (ext s) with
  | (x, Normal r) =>
      (assigned {| chatHistory := l; llm := llm (this s) |}
         (pushed l (message r) (called (CallChat sent None) x s1)),
       Normal (new_Response (content (message r)) None))
  | (x, Throw e) => (called (CallChat sent None) x s1, Throw e)
  end.
Proof.
  unfold achat. run.
  destruct (LLM.achat _ _ _ _) as [x [r | e]]; reflexivity.
Qed.

Lemma direct_reset_run s :
  reset s =
  (assigned {| chatHistory := next_loc s; llm := llm (this s) |} (allocated s),
   Normal tt).
Proof. reflexivity. Qed.
End DirectRuns.

Section CondenseRuns.
Context {W : Type} `{Imports W}.
Import CondenseQuestionChatEngine.
Implicit Types (s : Store W (t W)) (m : string) (o : option loc).

Lemma acondenseQuestion_run s l question :
  acondenseQuestion l question s =
  let input : PromptInput :=
    {[ "question" := question; "chat_history" := messagesToHistoryStr (read l s) ]} in
  match LLMPredictor.apredict (ServiceContext.llmPredictor (serviceContext (this s)))
          defaultCondenseQuestionPrompt input (ext s) with
  | (x, r) => (called (CallPredict defaultCondenseQuestionPrompt input) x s, r)
  end.
Proof. reflexivity. Qed.

Lemma condense_achat_run s m o :
  achat m o s =
  let l := default (chatHistory (this s)) o in
  let input : PromptInput :=
    {[ "question" := m; "chat_history" := messagesToHistoryStr (read l s) ]} in
  let c1 := CallPredict defaultCondenseQuestionPrompt input in
  match LLMPredictor.apredict (ServiceContext.llmPredictor (serviceContext (this s)))
          defaultCondenseQuestionPrompt input (ext s) with
  | (x1, Throw e) => (called c1 x1 s, Throw e)
  | (x1, Normal q) =>
      let s1 := called c1 x1 s in
      match BaseQueryEngine.aquery (queryEngine (this s)) q x1 with
      | (x2, Throw e) => (called (CallQuery q) x2 s1, Throw e)
      | (x2, Normal r) =>
          (pushed l (says assistant (response r))
             (pushed l (says user m) (called (CallQuery q) x2 s1)),
           Normal r)
      end
  end.
Proof.
  unfold achat, acondenseQuestion. run.
  destruct (LLMPredictor.apredict _ _ _ _) as [x1 [q | e]]; [| reflexivity].
  autorewrite with store.
  destruct (BaseQueryEngine.aquery _ _ _) as [x2 [r | e]]; reflexivity.
Qed.

Lemma condense_reset_run s :
  reset s =
  (assigned {| queryEngine := queryEngine (this s);
               chatHistory := next_loc s;
               serviceContext := serviceContext (this s);
               condenseMessagePrompt := condenseMessagePrompt (this s) |}
     (allocated s),
   Normal tt).
Proof. reflexivity. Qed.
End CondenseRuns.

Section ContextRuns.
Context {W Score : Type} `{Imports W}.
Import ContextChatEngine.
Implicit Types (s : Store W (t W Score)) (m : string) (o : option loc).

Lemma context_achat_run s m o :
  achat m o s =
  let l := default (chatHistory (this s)) o in
  match uuidv4 (ext s) with
  | (x0, id) =>
      let ev := Some (wrapperEvent id) in
      let s0 := called (CallRetrieve m ev) in
      match BaseRetriever.aretrieve (retriever (this s)) m ev x0 with
      | (x1, Throw e) => (s0 x1 (moved x0 s), Throw e)
      | (x1, Normal items) =>
          let sent := systemMessage items :: read l s ++ [says user m] in
          let s1 := pushed l (says user m) (s0 x1 (moved x0 s)) in
          match LLM.achat (chatModel (this s)) sent ev x1 with
          | (x2, Throw e) => (called (CallChat sent ev) x2 s1, Throw e)
          | (x2, Normal r) =>
              (assigned {| retriever := retriever (this s);
                           chatModel := chatModel (this s);
                           chatHistory := l |}
                 (pushed l (message r) (called (CallChat sent ev) x2 s1)),
               Normal (new_Response (content (message r)) (Some (map node items))))
          end
      end
  end.
Proof.
  unfold achat. run.
  destruct (uuidv4 (ext s)) as [x0 id]. autorewrite with store.
  destruct (BaseRetriever.aretrieve _ _ _ _) as [x1 [items | e]]; [| reflexivity].
  autorewrite with store.
  destruct (LLM.achat _ _ _ _) as [x2 [r | e]]; reflexivity.
Qed.

Lemma context_reset_run s :
  reset s =
  (assigned {| retriever := retriever (this s);
               chatModel := chatModel (this s);
               chatHistory := next_loc s |}
     (allocated s),
   Normal tt).
Proof. reflexivity. Qed.
End ContextRuns.

(** ** A successful turn is recorded as the user's message and the answer *)

Lemma message_eta (r : ChatResponse) :
  message r = says (role (message r)) (content (message r)).
Proof. by destruct r as [[c ro]]. Qed.

(** C2: for every strategy and every message [m], after a successful
    [achat(m)] the History ends with the user message of content [m]
    followed by the assistant message whose content is what the gateway
    returned (the Completion Gateway for the Direct and Context-Augmented
    strategies, the Query Engine for Condense-then-Query).  In
    Condense-then-Query the user entry holds the original [m], whatever the
    condensed question [q] was.  The Completion Gateway answers in the role
    assistant, as its contract says. *)
Theorem achat_records_user_then_assistant {W Score : Type} `{Imports W} (m : string) :
  (forall (s : Store W (SimpleChatEngine.t W)) x r,
      LLM.achat (SimpleChatEngine.llm (this s))
        (direct_history s ++ [says user m]) None (ext s) = (x, Normal r) ->
      role (message r) = assistant ->
      exists s',
        SimpleChatEngine.achat m None s
          = (s', Normal (new_Response (content (message r)) None)) /\
        direct_history s'
          = direct_history s ++ [says user m; says assistant (content (message r))])
  /\
  (forall (s : Store W (CondenseQuestionChatEngine.t W)) x1 q x2 a,
      LLMPredictor.apredict
        (ServiceContext.llmPredictor (CondenseQuestionChatEngine.serviceContext (this s)))
        defaultCondenseQuestionPrompt
        {[ "question" := m; "chat_history" := messagesToHistoryStr (condense_history s) ]}
        (ext s) = (x1, Normal q) ->
      BaseQueryEngine.aquery (CondenseQuestionChatEngine.queryEngine (this s)) q x1
        = (x2, Normal a) ->
      exists s',
        CondenseQuestionChatEngine.achat m None s = (s', Normal a) /\
        condense_history s'
          = condense_history s ++ [says user m; says assistant (response a)])
  /\
  (forall (s : Store W (ContextChatEngine.t W Score)) x0 id x1 items x2 r,
      uuidv4 (ext s) = (x0, id) ->
      BaseRetriever.aretrieve (ContextChatEngine.retriever (this s)) m
        (Some (ContextChatEngine.wrapperEvent id)) x0 = (x1, Normal items) ->
      LLM.achat (ContextChatEngine.chatModel (this s))
        (ContextChatEngine.systemMessage items :: context_history s ++ [says user m])
        (Some (ContextChatEngine.wrapperEvent id)) x1 = (x2, Normal r) ->
      role (message r) = assistant ->
      exists s',
        ContextChatEngine.achat m None s
          = (s', Normal (new_Response (content (message r)) (Some (map node items)))) /\
        context_history s'
          = context_history s ++ [says user m; says assistant (content (message r))]).
Proof.
  split; [| split].
  - intros s x r Hg Hrole. rewrite direct_achat_run. simpl.
    unfold direct_history in Hg. rewrite Hg.
    eexists; split; [reflexivity |].
    unfold direct_history. autorewrite with store. simpl.
    rewrite <- app_assoc. simpl. by rewrite (message_eta r), Hrole.
  - intros s x1 q x2 a Hp Hq. rewrite condense_achat_run. simpl.
    unfold condense_history in Hp. rewrite Hp, Hq.
    eexists; split; [reflexivity |].
    unfold condense_history. autorewrite with store.
    by rewrite <- app_assoc.
  - intros s x0 id x1 items x2 r Hu Hr Hg Hrole. rewrite context_achat_run. simpl.
    unfold context_history in Hg. rewrite Hu, Hr, Hg.
    eexists; split; [reflexivity |].
    unfold context_history. autorewrite with store. simpl.
    rewrite <- app_assoc. simpl. by rewrite (message_eta r), Hrole.
Qed.

Lemma achat_records_user_then_assistant_witness :
  (exists s',
      SimpleChatEngine.achat "hi" None
        (Stubs.store (Stubs.simple (Stubs.llm_says (says assistant "hello"))) [])
        = (s', Normal (new_Response "hello" None)) /\
      direct_history s' = [says user "hi"; says assistant "hello"])
  /\
  (exists s',
      CondenseQuestionChatEngine.achat "and Lyon?" None
        (Stubs.store
           (Stubs.condense (Stubs.predictor_says "What is the population of Lyon?")
              (Stubs.engine_says "About 520,000.") Stubs.customPrompt)
           [says user "What is the population of Paris?"; says assistant "About 2.1 million."])
        = (s', Normal {| response := "About 520,000."; sourceNodes := [] |}) /\
      condense_history s'
        = [says user "What is the population of Paris?"; says assistant "About 2.1 million.";
           says user "and Lyon?"; says assistant "About 520,000."])
  /\
  (exists s',
      ContextChatEngine.achat "What is the capital of France?" None
        (Stubs.store
           (Stubs.context (Stubs.retriever_finds [{| node := Stubs.paris; score := 9 |}])
              (Stubs.llm_says (says assistant "Paris.")))
           [])
        = (s', Normal (new_Response "Paris." (Some [Stubs.paris]))) /\
      context_history s'
        = [says user "What is the capital of France?"; says assistant "Paris."]).
Proof.
  destruct (achat_records_user_then_assistant (W := Stubs.world) (Score := nat) "hi")
    as [direct _].
  destruct (achat_records_user_then_assistant (W := Stubs.world) (Score := nat) "and Lyon?")
    as (_ & condense & _).
  destruct (achat_records_user_then_assistant (W := Stubs.world) (Score := nat)
              "What is the capital of France?") as (_ & _ & context).
  split; [| split].
  - exact (direct (Stubs.store (Stubs.simple (Stubs.llm_says (says assistant "hello"))) [])
             1 {| message := says assistant "hello" |} eq_refl eq_refl).
  - exact (condense
             (Stubs.store
                (Stubs.condense (Stubs.predictor_says "What is the population of Lyon?")
                   (Stubs.engine_says "About 520,000.") Stubs.customPrompt)
                [says user "What is the population of Paris?";
                 says assistant "About 2.1 million."])
             1 "What is the population of Lyon?" 2
             {| response := "About 520,000."; sourceNodes := [] |} eq_refl eq_refl).
  - exact (context
             (Stubs.store
                (Stubs.context (Stubs.retriever_finds [{| node := Stubs.paris; score := 9 |}])
                   (Stubs.llm_says (says assistant "Paris.")))
                [])
             0 "00000000-0000-4000-8000-000000000000" 1
             [{| node := Stubs.paris; score := 9 |}] 2
             {| message := says assistant "Paris." |} eq_refl eq_refl eq_refl eq_refl).
Defined.

(** ** The condensation step *)

(** Whatever the engine was configured with, the condensation step hands
    [defaultCondenseQuestionPrompt] to the predictor, with the message and
    the rendered history as the variables. *)
Lemma acondenseQuestion_calls {W : Type} `{Imports W}
    (s : Store W (CondenseQuestionChatEngine.t W)) (l : loc) (question : string) :
  calls (fst (CondenseQuestionChatEngine.acondenseQuestion l question s))
  = calls s ++
    [CallPredict defaultCondenseQuestionPrompt
       {[ "question" := question; "chat_history" := messagesToHistoryStr (read l s) ]}].
Proof.
  rewrite acondenseQuestion_run. simpl.
  by destruct (LLMPredictor.apredict _ _ _ _).
Qed.

(** C1, as the code has it: there is no pass-through.  When the history a
    turn works on (the supplied array, or else the engine's own) is empty,
    the condensation step still asks the predictor, with some template [p],
    the message [m] as the question and the empty text as the history, and
    its output is the predictor's outcome.  When the predictor answers [q],
    [q] is the question passed on to the Query Engine; when it fails, the
    turn fails with its error and the Query Engine is not asked. *)
Theorem condense_empty_history_asks_predictor {W : Type} `{Imports W}
    (s : Store W (CondenseQuestionChatEngine.t W)) (m : string) (o : option loc) :
  let l := default (CondenseQuestionChatEngine.chatHistory (this s)) o in
  let input : PromptInput := {[ "question" := m; "chat_history" := "" ]} in
  read l s = [] ->
  exists p : SimplePrompt,
    let predicted :=
      LLMPredictor.apredict
        (ServiceContext.llmPredictor (CondenseQuestionChatEngine.serviceContext (this s)))
        p input (ext s) in
    CondenseQuestionChatEngine.acondenseQuestion l m s
      = (called (CallPredict p input) (fst predicted) s, snd predicted)
    /\ match snd predicted with
       | Normal q =>
           calls (fst (CondenseQuestionChatEngine.achat m o s))
           = calls s ++ [CallPredict p input; CallQuery q]
       | Throw e =>
           calls (fst (CondenseQuestionChatEngine.achat m o s))
           = calls s ++ [CallPredict p input]
           /\ snd (CondenseQuestionChatEngine.achat m o s) = Throw e
       end.
Proof.
  intros l input Hempty. exists defaultCondenseQuestionPrompt. cbv zeta. split.
  - rewrite acondenseQuestion_run. cbv zeta. rewrite Hempty.
    change (messagesToHistoryStr []) with "". fold input.
    by destruct (LLMPredictor.apredict _ _ _ _).
  - rewrite condense_achat_run. cbv zeta. fold l. rewrite Hempty.
    change (messagesToHistoryStr []) with "". fold input.
    destruct (LLMPredictor.apredict _ _ _ _) as [x1 [q | e]]; simpl snd; [| by split].
    destruct (BaseQueryEngine.aquery _ _ _) as [x2 [r | e]];
      simpl; by rewrite <- app_assoc.
Qed.

Lemma condense_empty_history_asks_predictor_witness :
  let s := Stubs.store2
             (Stubs.condense (Stubs.predictor_says "Which X do you mean?")
                (Stubs.engine_says "42") defaultCondenseQuestionPrompt)
             [says user "hi"; says assistant "hello"] [] in
  let input : PromptInput := {[ "question" := "What is X?"; "chat_history" := "" ]} in
  exists p : SimplePrompt,
    CondenseQuestionChatEngine.acondenseQuestion 1 "What is X?" s
      = (called (CallPredict p input) 1 s, Normal "Which X do you mean?")
    /\ calls (fst (CondenseQuestionChatEngine.achat "What is X?" (Some 1) s))
       = [CallPredict p input; CallQuery "Which X do you mean?"].
Proof.
  exact (condense_empty_history_asks_predictor
           (Stubs.store2
              (Stubs.condense (Stubs.predictor_says "Which X do you mean?")
                 (Stubs.engine_says "42") defaultCondenseQuestionPrompt)
              [says user "hi"; says assistant "hello"] [])
           "What is X?" (Some 1) eq_refl).
Defined.

(** C1, as the claim states it, fails: the history is empty, the message is
    "What is X?", and the question that reaches the Query Engine is the
    predictor's text, not the message. *)
Lemma condense_empty_history_no_pass_through :
  let s := Stubs.store
             (Stubs.condense (Stubs.predictor_says "Which X do you mean?")
                (Stubs.engine_says "42") defaultCondenseQuestionPrompt) [] in
  condense_history s = []
  /\ snd (CondenseQuestionChatEngine.acondenseQuestion
            (CondenseQuestionChatEngine.chatHistory (this s)) "What is X?" s)
     = Normal "Which X do you mean?"
  /\ last (calls (fst (CondenseQuestionChatEngine.achat "What is X?" None s)))
     = Some (CallQuery "Which X do you mean?")
  /\ "Which X do you mean?" <> "What is X?".
Proof. repeat split; [reflexivity .. | discriminate]. Qed.

(** C4, on the code: an engine constructed with its own condensation
    template keeps it in [condenseMessagePrompt], and the condensation step
    of [achat] hands the default template to the predictor all the same; the
    two templates render the call's variables differently. *)
Theorem condense_configured_prompt_is_not_used :
  let i := {| CondenseQuestionChatEngine.init_queryEngine := Stubs.engine_says "42";
              CondenseQuestionChatEngine.init_chatHistory := Some 0;
              CondenseQuestionChatEngine.init_serviceContext := Some Stubs.predictor_renders;
              CondenseQuestionChatEngine.init_condenseMessagePrompt := Some Stubs.customPrompt |} in
  let input : PromptInput := {[ "question" := "What is X?"; "chat_history" := "" ]} in
  exists e,
    CondenseQuestionChatEngine.constructor i (Stubs.store tt [])
      = (Stubs.store tt [], Normal e)
    /\ CondenseQuestionChatEngine.condenseMessagePrompt e = Stubs.customPrompt
    /\ calls (fst (CondenseQuestionChatEngine.achat "What is X?" None
                     (enter e (Stubs.store tt []))))
       = [CallPredict defaultCondenseQuestionPrompt input;
          CallQuery (defaultCondenseQuestionPrompt input)]
    /\ defaultCondenseQuestionPrompt input <> Stubs.customPrompt input.
Proof.
  eexists. split; [reflexivity |].
  split; [reflexivity |]. split; [reflexivity |].
  vm_compute. discriminate.
Qed.

(** ** The Context-Augmented turn *)

(** C5: whatever sequence of items the Retriever Gateway returns, the
    Completion Gateway is called next (with the system message in front of
    the history and the new user message), the outcome of the turn is the
    outcome of that call, and on success the response carries the nodes of the
    items in the order they were returned.  When the sequence is empty the
    context variable of the system prompt is the empty text. *)
Theorem context_sources_in_rank_order {W Score : Type} `{Imports W}
    (s : Store W (ContextChatEngine.t W Score)) (m : string) (o : option loc)
    (x0 : W) (id : string) (x1 : W) (items : list (NodeWithScore Score)) :
  let l := default (ContextChatEngine.chatHistory (this s)) o in
  let ev := Some (ContextChatEngine.wrapperEvent id) in
  let sent := ContextChatEngine.systemMessage items :: read l s ++ [says user m] in
  uuidv4 (ext s) = (x0, id) ->
  BaseRetriever.aretrieve (ContextChatEngine.retriever (this s)) m ev x0
    = (x1, Normal items) ->
  calls (fst (ContextChatEngine.achat m o s))
    = calls s ++ [CallRetrieve m ev; CallChat sent ev]
  /\ (forall x2 r,
        LLM.achat (ContextChatEngine.chatModel (this s)) sent ev x1 = (x2, Normal r) ->
        exists a,
          snd (ContextChatEngine.achat m o s) = Normal a
          /\ response a = content (message r)
          /\ sourceNodes a = map node items)
  /\ (forall x2 e,
        LLM.achat (ContextChatEngine.chatModel (this s)) sent ev x1 = (x2, Throw e) ->
        snd (ContextChatEngine.achat m o s) = Throw e)
  /\ (items = [] ->
      sent = says system (contextSystemPrompt {[ "context" := "" ]})
               :: read l s ++ [says user m]).
Proof.
  intros l ev sent Hu Hr. rewrite context_achat_run. cbv zeta.
  rewrite Hu. fold ev. rewrite Hr. fold l. fold sent.
  repeat split.
  - destruct (LLM.achat _ _ _ _) as [x2 [r | e]]; simpl; by rewrite <- app_assoc.
  - intros x2 r ->. by eexists.
  - by intros x2 e ->.
  - intros ->. reflexivity.
Qed.

Lemma context_sources_in_rank_order_witness :
  let lyon := {| node_id := "n2"; text := "Lyon is a city in France" |} in
  let s := Stubs.store
             (Stubs.context
                (Stubs.retriever_finds
                   [{| node := Stubs.paris; score := 9 |}; {| node := lyon; score := 4 |}])
                (Stubs.llm_says (says assistant "Paris.")))
             [] in
  exists a,
    snd (ContextChatEngine.achat "What is the capital of France?" None s) = Normal a
    /\ response a = "Paris."
    /\ sourceNodes a = [Stubs.paris; lyon].
Proof.
  intros lyon s.
  exact (proj1 (proj2
           (context_sources_in_rank_order s "What is the capital of France?" None
              0 "00000000-0000-4000-8000-000000000000" 1
              [{| node := Stubs.paris; score := 9 |}; {| node := lyon; score := 4 |}]
              eq_refl eq_refl))
           2 {| message := says assistant "Paris." |} eq_refl).
Defined.

(** ** The Direct turn *)

(** C9: a Direct turn that succeeds returns a response without source
    items. *)
Theorem direct_response_has_no_sources {W : Type} `{Imports W}
    (s : Store W (SimpleChatEngine.t W)) (m : string) (o : option loc) :
  (forall a, snd (SimpleChatEngine.achat m o s) = Normal a -> sourceNodes a = [])
  /\ (forall x r,
        LLM.achat (SimpleChatEngine.llm (this s))
          (read (default (SimpleChatEngine.chatHistory (this s)) o) s ++ [says user m])
          None (ext s) = (x, Normal r) ->
        snd (SimpleChatEngine.achat m o s)
          = Normal {| response := content (message r); sourceNodes := [] |}).
Proof.
  rewrite direct_achat_run. cbv zeta. split.
  - intros a. destruct (LLM.achat _ _ _ _) as [x [r | e]]; simpl; [| discriminate].
    by intros [= <-].
  - by intros x r ->.
Qed.

Lemma direct_response_has_no_sources_witness :
  snd (SimpleChatEngine.achat "hi" None
         (Stubs.store (Stubs.simple (Stubs.llm_says (says assistant "hello"))) []))
  = Normal {| response := "hello"; sourceNodes := [] |}.
Proof.
  exact (proj2
           (direct_response_has_no_sources
              (Stubs.store (Stubs.simple (Stubs.llm_says (says assistant "hello"))) [])
              "hi" None)
           1 {| message := says assistant "hello" |} eq_refl).
Defined.

(** C7: two Direct turns in a row on one engine whose History starts empty,
    the first one successful.  The Completion Gateway is called twice; the
    second call is sent three messages: the first user message, the reply to
    it (an assistant message, by the gateway's contract) and the second user
    message. *)
Theorem direct_second_call_sends_three {W : Type} `{Imports W}
    (s : Store W (SimpleChatEngine.t W)) (m1 m2 : string) (x1 : W) (r1 : ChatResponse) :
  direct_history s = [] ->
  LLM.achat (SimpleChatEngine.llm (this s)) [says user m1] None (ext s) = (x1, Normal r1) ->
  let s2 := fst ((SimpleChatEngine.achat m1 None;; SimpleChatEngine.achat m2 None) s) in
  let sent := [says user m1; message r1; says user m2] in
  calls s2 = calls s ++ [CallChat [says user m1] None; CallChat sent None]
  /\ length sent = 3
  /\ (role (message r1) = assistant ->
      sent = [says user m1; says assistant (content (message r1)); says user m2]).
Proof.
  intros Hempty Hg s2 sent. unfold direct_history in Hempty.
  repeat split.
  - subst s2. cbv beta iota zeta delta [mbind M_bind bind].
    rewrite direct_achat_run. cbv zeta. simpl default.
    rewrite Hempty. simpl app. rewrite Hg.
    rewrite direct_achat_run. cbv zeta. autorewrite with store. simpl default.
    autorewrite with store. rewrite Hempty. simpl app. fold sent.
    destruct (LLM.achat _ sent None x1) as [x2 [r2 | e2]]; simpl;
      by rewrite <- app_assoc.
  - intros Hrole. subst sent. by rewrite (message_eta r1), Hrole.
Qed.

Lemma direct_second_call_sends_three_witness :
  let s := Stubs.store (Stubs.simple (Stubs.llm_says (says assistant "hello"))) [] in
  let s2 := fst ((SimpleChatEngine.achat "hi" None;;
                  SimpleChatEngine.achat "how are you?" None) s) in
  calls s2
  = [CallChat [says user "hi"] None;
     CallChat [says user "hi"; says assistant "hello"; says user "how are you?"] None].
Proof.
  exact (proj1
           (direct_second_call_sends_three
              (Stubs.store (Stubs.simple (Stubs.llm_says (says assistant "hello"))) [])
              "hi" "how are you?" 1 {| message := says assistant "hello" |}
              eq_refl eq_refl)).
Defined.

(** ** [reset] *)

(** A new array is none of the arrays that were there, also after a second
    one was made. *)
Lemma next_loc_allocated {W Self : Type} (o : Self) (s : Store W Self) :
  heap s !! next_loc (assigned o (allocated s)) = None.
Proof.
  pose proof (next_loc_fresh (assigned o (allocated s))) as Hnew.
  unfold assigned, allocated in Hnew; simpl in Hnew.
  apply lookup_insert_None in Hnew. tauto.
Qed.

(** C8: in every strategy and from every state, [reset()] returns and the
    History read afterwards is empty; a second [reset()] right after it
    leaves the History empty, every array with the contents it had, the
    collaborators, the outside world and the log of calls as they were.  The
    History is each time an array that did not exist before the reset, so the
    array the engine held before is not emptied. *)
Theorem reset_clears_history {W Score : Type} `{Imports W} :
  (forall s : Store W (SimpleChatEngine.t W),
      let s1 := fst (SimpleChatEngine.reset s) in
      let s2 := fst (SimpleChatEngine.reset s1) in
      snd (SimpleChatEngine.reset s) = Normal tt
      /\ direct_history s1 = []
      /\ direct_history s2 = direct_history s1
      /\ same_arrays s2 s1
      /\ SimpleChatEngine.llm (this s2) = SimpleChatEngine.llm (this s1)
      /\ heap s !! SimpleChatEngine.chatHistory (this s1) = None
      /\ heap s !! SimpleChatEngine.chatHistory (this s2) = None)
  /\
  (forall s : Store W (CondenseQuestionChatEngine.t W),
      let s1 := fst (CondenseQuestionChatEngine.reset s) in
      let s2 := fst (CondenseQuestionChatEngine.reset s1) in
      snd (CondenseQuestionChatEngine.reset s) = Normal tt
      /\ condense_history s1 = []
      /\ condense_history s2 = condense_history s1
      /\ same_arrays s2 s1
      /\ CondenseQuestionChatEngine.queryEngine (this s2)
         = CondenseQuestionChatEngine.queryEngine (this s1)
      /\ CondenseQuestionChatEngine.serviceContext (this s2)
         = CondenseQuestionChatEngine.serviceContext (this s1)
      /\ CondenseQuestionChatEngine.condenseMessagePrompt (this s2)
         = CondenseQuestionChatEngine.condenseMessagePrompt (this s1)
      /\ heap s !! CondenseQuestionChatEngine.chatHistory (this s1) = None
      /\ heap s !! CondenseQuestionChatEngine.chatHistory (this s2) = None)
  /\
  (forall s : Store W (ContextChatEngine.t W Score),
      let s1 := fst (ContextChatEngine.reset s) in
      let s2 := fst (ContextChatEngine.reset s1) in
      snd (ContextChatEngine.reset s) = Normal tt
      /\ context_history s1 = []
      /\ context_history s2 = context_history s1
      /\ same_arrays s2 s1
      /\ ContextChatEngine.retriever (this s2) = ContextChatEngine.retriever (this s1)
      /\ ContextChatEngine.chatModel (this s2) = ContextChatEngine.chatModel (this s1)
      /\ heap s !! ContextChatEngine.chatHistory (this s1) = None
      /\ heap s !! ContextChatEngine.chatHistory (this s2) = None).
Proof.
  split; [| split]; intros s s1 s2.
  - subst s2 s1. rewrite !direct_reset_run. simpl fst. simpl snd.
    unfold direct_history. autorewrite with store. simpl.
    rewrite !read_next_loc.
    repeat split;
      first [ apply next_loc_fresh | apply next_loc_allocated
            | unfold read; by rewrite next_loc_allocated
            | intros l; by autorewrite with store ].
  - subst s2 s1. rewrite !condense_reset_run. simpl fst. simpl snd.
    unfold condense_history. autorewrite with store. simpl.
    rewrite !read_next_loc.
    repeat split;
      first [ apply next_loc_fresh | apply next_loc_allocated
            | unfold read; by rewrite next_loc_allocated
            | intros l; by autorewrite with store ].
  - subst s2 s1. rewrite !context_reset_run. simpl fst. simpl snd.
    unfold context_history. autorewrite with store. simpl.
    rewrite !read_next_loc.
    repeat split;
      first [ apply next_loc_fresh | apply next_loc_allocated
            | unfold read; by rewrite next_loc_allocated
            | intros l; by autorewrite with store ].
Qed.

(** ** Turns that fail *)

(** C6: when a gateway call of a turn is rejected, the turn ends with that
    failure and no assistant message is appended.  In the Direct strategy and
    at the completion step of the Context-Augmented strategy the user message
    is already in the array; when the retrieval fails, and in
    Condense-then-Query when the condensation or the query fails, no array is
    changed at all.  The engine's own fields are as before in every case. *)
Theorem failed_turn_appends_no_assistant {W Score : Type} `{Imports W}
    (m : string) (o : option loc) (e : exn) :
  (forall (s : Store W (SimpleChatEngine.t W)) x,
      let l := default (SimpleChatEngine.chatHistory (this s)) o in
      LLM.achat (SimpleChatEngine.llm (this s)) (read l s ++ [says user m]) None (ext s)
        = (x, Throw e) ->
      exists s',
        SimpleChatEngine.achat m o s = (s', Throw e)
        /\ this s' = this s
        /\ read l s' = read l s ++ [says user m]
        /\ (forall l', l <> l' -> read l' s' = read l' s))
  /\
  (forall (s : Store W (CondenseQuestionChatEngine.t W)) x,
      let l := default (CondenseQuestionChatEngine.chatHistory (this s)) o in
      LLMPredictor.apredict
        (ServiceContext.llmPredictor (CondenseQuestionChatEngine.serviceContext (this s)))
        defaultCondenseQuestionPrompt
        {[ "question" := m; "chat_history" := messagesToHistoryStr (read l s) ]}
        (ext s) = (x, Throw e) ->
      exists s',
        CondenseQuestionChatEngine.achat m o s = (s', Throw e)
        /\ this s' = this s /\ heap s' = heap s)
  /\
  (forall (s : Store W (CondenseQuestionChatEngine.t W)) x1 q x2,
      let l := default (CondenseQuestionChatEngine.chatHistory (this s)) o in
      LLMPredictor.apredict
        (ServiceContext.llmPredictor (CondenseQuestionChatEngine.serviceContext (this s)))
        defaultCondenseQuestionPrompt
        {[ "question" := m; "chat_history" := messagesToHistoryStr (read l s) ]}
        (ext s) = (x1, Normal q) ->
      BaseQueryEngine.aquery (CondenseQuestionChatEngine.queryEngine (this s)) q x1
        = (x2, Throw e) ->
      exists s',
        CondenseQuestionChatEngine.achat m o s = (s', Throw e)
        /\ this s' = this s /\ heap s' = heap s)
  /\
  (forall (s : Store W (ContextChatEngine.t W Score)) x0 id x1,
      uuidv4 (ext s) = (x0, id) ->
      BaseRetriever.aretrieve (ContextChatEngine.retriever (this s)) m
        (Some (ContextChatEngine.wrapperEvent id)) x0 = (x1, Throw e) ->
      exists s',
        ContextChatEngine.achat m o s = (s', Throw e)
        /\ this s' = this s /\ heap s' = heap s)
  /\
  (forall (s : Store W (ContextChatEngine.t W Score)) x0 id x1 items x2,
      let l := default (ContextChatEngine.chatHistory (this s)) o in
      uuidv4 (ext s) = (x0, id) ->
      BaseRetriever.aretrieve (ContextChatEngine.retriever (this s)) m
        (Some (ContextChatEngine.wrapperEvent id)) x0 = (x1, Normal items) ->
      LLM.achat (ContextChatEngine.chatModel (this s))
        (ContextChatEngine.systemMessage items :: read l s ++ [says user m])
        (Some (ContextChatEngine.wrapperEvent id)) x1 = (x2, Throw e) ->
      exists s',
        ContextChatEngine.achat m o s = (s', Throw e)
        /\ this s' = this s
        /\ read l s' = read l s ++ [says user m]
        /\ (forall l', l <> l' -> read l' s' = read l' s)).
Proof.
  repeat apply conj.
  - intros s x l Hg. rewrite direct_achat_run. cbv zeta. fold l. rewrite Hg.
    eexists; split; [reflexivity |]. autorewrite with store.
    repeat split. intros l' Hne. autorewrite with store.
    by rewrite read_pushed_ne.
  - intros s x l Hp. rewrite condense_achat_run. cbv zeta. fold l. rewrite Hp.
    by eexists.
  - intros s x1 q x2 l Hp Hq. rewrite condense_achat_run. cbv zeta. fold l.
    rewrite Hp, Hq. by eexists.
  - intros s x0 id x1 Hu Hr. rewrite context_achat_run. cbv zeta.
    rewrite Hu, Hr. by eexists.
  - intros s x0 id x1 items x2 l Hu Hr Hg. rewrite context_achat_run. cbv zeta.
    fold l. rewrite Hu, Hr, Hg.
    eexists; split; [reflexivity |]. autorewrite with store.
    repeat split. intros l' Hne. autorewrite with store.
    rewrite read_pushed_ne by done. by autorewrite with store.
Qed.

Lemma failed_turn_appends_no_assistant_witness :
  let asked := [says user "hi"; says assistant "hello"] in
  (exists s',
      SimpleChatEngine.achat "are you there?" None
        (Stubs.store (Stubs.simple Stubs.llm_down) asked) = (s', Throw (Error "rate limit"))
      /\ direct_history s' = asked ++ [says user "are you there?"])
  /\
  (exists s',
      CondenseQuestionChatEngine.achat "are you there?" None
        (Stubs.store
           (Stubs.condense (Stubs.predictor_says "Are you there?") Stubs.engine_down
              Stubs.customPrompt) asked) = (s', Throw (Error "timeout"))
      /\ condense_history s' = asked)
  /\
  (exists s',
      ContextChatEngine.achat "are you there?" None
        (Stubs.store (Stubs.context (Stubs.retriever_finds []) Stubs.llm_down) asked)
        = (s', Throw (Error "rate limit"))
      /\ context_history s' = asked ++ [says user "are you there?"]).
Proof.
  intros asked.
  destruct (failed_turn_appends_no_assistant (W := Stubs.world) (Score := nat)
              "are you there?" None (Error "rate limit"))
    as (direct & _ & _ & _ & context).
  destruct (failed_turn_appends_no_assistant (W := Stubs.world) (Score := nat)
              "are you there?" None (Error "timeout"))
    as (_ & _ & condense & _ & _).
  split; [| split].
  - destruct (direct (Stubs.store (Stubs.simple Stubs.llm_down) asked) 1 eq_refl)
      as (s' & Hrun & Hthis & Hread & _).
    exists s'. split; [exact Hrun |].
    unfold direct_history. rewrite Hthis. exact Hread.
  - destruct (condense
                (Stubs.store
                   (Stubs.condense (Stubs.predictor_says "Are you there?") Stubs.engine_down
                      Stubs.customPrompt) asked)
                1 "Are you there?" 2 eq_refl eq_refl)
      as (s' & Hrun & Hthis & Hheap).
    exists s'. split; [exact Hrun |].
    unfold condense_history, read. rewrite Hthis, Hheap. reflexivity.
  - destruct (context
                (Stubs.store (Stubs.context (Stubs.retriever_finds []) Stubs.llm_down) asked)
                0 "00000000-0000-4000-8000-000000000000" 1 [] 2 eq_refl eq_refl eq_refl)
      as (s' & Hrun & Hthis & Hread & _).
    exists s'. split; [exact Hrun |].
    unfold context_history. rewrite Hthis. exact Hread.
Defined.

(** ** The system message of the Context-Augmented turn *)



(** ** A history passed to [achat] *)

(** C10: a successful turn on a supplied array [l].  The Direct and the
    Context-Augmented engine end up holding [l], with the turn appended, and
    their next turn without a supplied array works on it.  The
    Condense-then-Query engine appends the turn to [l] as well but goes on
    holding the array it held; that array is untouched (when it is not [l]
    itself) and its next turn without a supplied array condenses against
    it. *)
Theorem supplied_history_adopted_except_by_condense {W Score : Type} `{Imports W}
    (m m2 : string) (l : loc) :
  (forall (s : Store W (SimpleChatEngine.t W)) x r,
      LLM.achat (SimpleChatEngine.llm (this s)) (read l s ++ [says user m]) None (ext s)
        = (x, Normal r) ->
      let s' := fst (SimpleChatEngine.achat m (Some l) s) in
      SimpleChatEngine.chatHistory (this s') = l
      /\ read l s' = read l s ++ [says user m; message r]
      /\ calls (fst (SimpleChatEngine.achat m2 None s'))
         = calls s' ++ [CallChat (read l s ++ [says user m; message r; says user m2]) None])
  /\
  (forall (s : Store W (ContextChatEngine.t W Score)) x0 id x1 items x2 r,
      uuidv4 (ext s) = (x0, id) ->
      BaseRetriever.aretrieve (ContextChatEngine.retriever (this s)) m
        (Some (ContextChatEngine.wrapperEvent id)) x0 = (x1, Normal items) ->
      LLM.achat (ContextChatEngine.chatModel (this s))
        (ContextChatEngine.systemMessage items :: read l s ++ [says user m])
        (Some (ContextChatEngine.wrapperEvent id)) x1 = (x2, Normal r) ->
      let s' := fst (ContextChatEngine.achat m (Some l) s) in
      ContextChatEngine.chatHistory (this s') = l
      /\ read l s' = read l s ++ [says user m; message r]
      /\ forall y0 id' y1 items',
           uuidv4 (ext s') = (y0, id') ->
           BaseRetriever.aretrieve (ContextChatEngine.retriever (this s')) m2
             (Some (ContextChatEngine.wrapperEvent id')) y0 = (y1, Normal items') ->
           calls (fst (ContextChatEngine.achat m2 None s'))
           = calls s' ++
             [CallRetrieve m2 (Some (ContextChatEngine.wrapperEvent id'));
              CallChat
                (ContextChatEngine.systemMessage items'
                   :: read l s ++ [says user m; message r; says user m2])
                (Some (ContextChatEngine.wrapperEvent id'))])
  /\
  (forall (s : Store W (CondenseQuestionChatEngine.t W)) x1 q x2 a,
      LLMPredictor.apredict
        (ServiceContext.llmPredictor (CondenseQuestionChatEngine.serviceContext (this s)))
        defaultCondenseQuestionPrompt
        {[ "question" := m; "chat_history" := messagesToHistoryStr (read l s) ]}
        (ext s) = (x1, Normal q) ->
      BaseQueryEngine.aquery (CondenseQuestionChatEngine.queryEngine (this s)) q x1
        = (x2, Normal a) ->
      let own := CondenseQuestionChatEngine.chatHistory (this s) in
      let s' := fst (CondenseQuestionChatEngine.achat m (Some l) s) in
      CondenseQuestionChatEngine.chatHistory (this s') = own
      /\ read l s' = read l s ++ [says user m; says assistant (response a)]
      /\ (l <> own -> read own s' = read own s)
      /\ exists rest,
           calls (fst (CondenseQuestionChatEngine.achat m2 None s'))
           = calls s' ++
             CallPredict defaultCondenseQuestionPrompt
               {[ "question" := m2; "chat_history" := messagesToHistoryStr (read own s') ]}
               :: rest).
Proof.
  repeat apply conj.
  - intros s x r Hg s'. subst s'. rewrite direct_achat_run. cbv zeta. simpl default.
    rewrite Hg. simpl fst. autorewrite with store. rewrite <- app_assoc.
    repeat split.
    rewrite direct_achat_run. cbv zeta. autorewrite with store. simpl default.
    autorewrite with store. rewrite <- !app_assoc. simpl app.
    by destruct (LLM.achat _ _ None x) as [y [r2 | e2]]; simpl; rewrite <- ?app_assoc.
  - intros s x0 id x1 items x2 r Hu Hr Hg s'. subst s'.
    rewrite context_achat_run. cbv zeta. simpl default.
    rewrite Hu, Hr, Hg. simpl fst. autorewrite with store. rewrite <- app_assoc.
    repeat split.
    intros y0 id' y1 items' Hu' Hr'.
    rewrite context_achat_run. cbv zeta. autorewrite with store. simpl default.
    cbn [ContextChatEngine.retriever ContextChatEngine.chatModel] in *.
    rewrite Hu', Hr'.
    autorewrite with store. rewrite <- !app_assoc. simpl app.
    by destruct (LLM.achat _ _ _ y1) as [y2 [r2 | e2]]; simpl; rewrite <- ?app_assoc.
  - intros s x1 q x2 a Hp Hq own s'. subst s'.
    rewrite condense_achat_run. cbv zeta. simpl default.
    rewrite Hp, Hq. simpl fst. autorewrite with store. rewrite <- app_assoc.
    repeat split.
    + intros Hne. rewrite !read_pushed_ne by done. by autorewrite with store.
    + rewrite condense_achat_run. cbv zeta. autorewrite with store. simpl default.
      fold own. clear Hp Hq.
      destruct (LLMPredictor.apredict _ _ _ x2) as [y1 [q' | e']].
      * cbv beta iota.
        destruct (BaseQueryEngine.aquery _ q' y1) as [y2 [a' | e']];
          cbv beta iota; simpl fst; autorewrite with store;
          eexists; rewrite <- ?app_assoc; reflexivity.
      * cbv beta iota; simpl fst; autorewrite with store.
        eexists; rewrite <- ?app_assoc; reflexivity.
Qed.

Lemma supplied_history_adopted_except_by_condense_witness :
  let earlier := [says user "hi"; says assistant "hello"] in
  let reply := says assistant "Paris." in
  (let s' := fst (SimpleChatEngine.achat "capital of France?" (Some 1)
                    (Stubs.store2 (Stubs.simple (Stubs.llm_says reply)) [] earlier)) in
   SimpleChatEngine.chatHistory (this s') = 1
   /\ read 1 s' = earlier ++ [says user "capital of France?"; reply])
  /\
  (let s' := fst (ContextChatEngine.achat "capital of France?" (Some 1)
                    (Stubs.store2
                       (Stubs.context (Stubs.retriever_finds []) (Stubs.llm_says reply))
                       [] earlier)) in
   ContextChatEngine.chatHistory (this s') = 1
   /\ read 1 s' = earlier ++ [says user "capital of France?"; reply])
  /\
  (let s' := fst (CondenseQuestionChatEngine.achat "capital of France?" (Some 1)
                    (Stubs.store2
                       (Stubs.condense (Stubs.predictor_says "What is the capital of France?")
                          (Stubs.engine_says "Paris.") Stubs.customPrompt)
                       [] earlier)) in
   CondenseQuestionChatEngine.chatHistory (this s') = 0
   /\ read 1 s' = earlier ++ [says user "capital of France?"; reply]
   /\ read 0 s' = []).
Proof.
  intros earlier reply.
  destruct (supplied_history_adopted_except_by_condense
              (W := Stubs.world) (Score := nat) "capital of France?" "and of Spain?" 1)
    as (direct & context & condense).
  split; [| split].
  - destruct (direct
                (Stubs.store2 (Stubs.simple (Stubs.llm_says reply)) [] earlier)
                1 {| message := reply |} eq_refl) as (Hown & Hread & _).
    exact (conj Hown Hread).
  - destruct (context
                (Stubs.store2
                   (Stubs.context (Stubs.retriever_finds []) (Stubs.llm_says reply))
                   [] earlier)
                0 "00000000-0000-4000-8000-000000000000" 1 [] 2 {| message := reply |}
                eq_refl eq_refl eq_refl) as (Hown & Hread & _).
    exact (conj Hown Hread).
  - destruct (condense
                (Stubs.store2
                   (Stubs.condense (Stubs.predictor_says "What is the capital of France?")
                      (Stubs.engine_says "Paris.") Stubs.customPrompt)
                   [] earlier)
                1 "What is the capital of France?" 2
                {| response := "Paris."; sourceNodes := [] |} eq_refl eq_refl)
      as (Hown & Hread & Hkept & _).
    refine (conj Hown (conj Hread (Hkept _))). discriminate.
Defined.

(** C10, as the claim states it, fails when the turn does not succeed: the
    completion call of a Direct turn on the supplied array at location 1 is
    rejected.  The user message has been pushed onto the supplied array, the
    engine still holds its own array at location 0, and its next turn without
    a supplied array sends the contents of its own array. *)
Lemma supplied_history_not_adopted_on_failure :
  let own := [says user "hi"; says assistant "hello"] in
  let s := Stubs.store2 (Stubs.simple Stubs.llm_down) own [] in
  let s' := fst (SimpleChatEngine.achat "capital of France?" (Some 1) s) in
  snd (SimpleChatEngine.achat "capital of France?" (Some 1) s) = Throw (Error "rate limit")
  /\ read 1 s' = [says user "capital of France?"]
  /\ SimpleChatEngine.chatHistory (this s') = 0
  /\ SimpleChatEngine.chatHistory (this s') <> 1
  /\ calls (fst (SimpleChatEngine.achat "and of Spain?" None s'))
     = calls s' ++ [CallChat (own ++ [says user "and of Spain?"]) None].
Proof. repeat split. discriminate. Qed.

(** * Further properties of the engines *)

(** ** What a turn changes, whatever its outcome *)

(** X1: a Direct turn calls the Completion Gateway exactly once, with the
    array's contents followed by the user message.  The user message is in
    the array afterwards whatever the outcome; the reply follows it exactly
    when the call was fulfilled, and only then does the engine take the array
    as its History.  No other array changes and the engine keeps its [llm]. *)
Theorem direct_turn_effect {W : Type} `{Imports W}
    (s : Store W (SimpleChatEngine.t W)) (m : string) (o : option loc) :
  let l := default (SimpleChatEngine.chatHistory (this s)) o in
  let s' := fst (SimpleChatEngine.achat m o s) in
  calls s' = calls s ++ [CallChat (read l s ++ [says user m]) None]
  /\ (forall l', l <> l' -> read l' s' = read l' s)
  /\ SimpleChatEngine.llm (this s') = SimpleChatEngine.llm (this s)
  /\ match snd (SimpleChatEngine.achat m o s) with
     | Normal a =>
         exists x r,
           LLM.achat (SimpleChatEngine.llm (this s)) (read l s ++ [says user m]) None (ext s)
             = (x, Normal r)
           /\ a = new_Response (content (message r)) None
           /\ read l s' = read l s ++ [says user m; message r]
           /\ SimpleChatEngine.chatHistory (this s') = l
     | Throw e =>
         read l s' = read l s ++ [says user m] /\ this s' = this s
     end.
Proof.
  intros l s'. subst s'. rewrite direct_achat_run. cbv zeta. fold l.
  destruct (LLM.achat _ _ _ _) as [x [r | e]] eqn:Hg; simpl fst; simpl snd.
  - autorewrite with store. repeat split.
    + intros l' Hne. autorewrite with store.
      rewrite read_pushed_ne by done. autorewrite with store.
      by rewrite read_pushed_ne.
    + exists x, r. repeat split. by rewrite <- app_assoc.
  - autorewrite with store. repeat split.
    intros l' Hne. autorewrite with store. by rewrite read_pushed_ne.
Qed.

(** X2: a Condense-then-Query turn records both messages or none.  When it
    returns, the array it works on has grown by the user message and the
    answer; when it throws, no array has changed.  In either case no other
    array changes and the engine keeps all its fields, its own [chatHistory]
    included. *)
Theorem condense_turn_effect {W : Type} `{Imports W}
    (s : Store W (CondenseQuestionChatEngine.t W)) (m : string) (o : option loc) :
  let l := default (CondenseQuestionChatEngine.chatHistory (this s)) o in
  let s' := fst (CondenseQuestionChatEngine.achat m o s) in
  this s' = this s
  /\ (forall l', l <> l' -> read l' s' = read l' s)
  /\ match snd (CondenseQuestionChatEngine.achat m o s) with
     | Normal a => read l s' = read l s ++ [says user m; says assistant (response a)]
     | Throw e => heap s' = heap s
     end.
Proof.
  intros l s'. subst s'. rewrite condense_achat_run. cbv zeta. fold l.
  destruct (LLMPredictor.apredict _ _ _ _) as [x1 [q | e]]; [| by repeat split].
  destruct (BaseQueryEngine.aquery _ _ _) as [x2 [a | e]]; [| by repeat split].
  simpl fst; simpl snd. autorewrite with store. repeat split.
  - intros l' Hne. rewrite !read_pushed_ne by done. by autorewrite with store.
  - by rewrite <- app_assoc.
Qed.

(** X3: a Condense-then-Query turn never puts a system message into the
    array it works on, whatever the predictor and the Query Engine return:
    the roles of the two messages it appends are fixed by the code. *)
Theorem condense_turn_keeps_no_system_message {W : Type} `{Imports W}
    (s : Store W (CondenseQuestionChatEngine.t W)) (m : string) (o : option loc) :
  let l := default (CondenseQuestionChatEngine.chatHistory (this s)) o in
  no_system_message (read l s) ->
  no_system_message (read l (fst (CondenseQuestionChatEngine.achat m o s))).
Proof.
  intros l Hno. rewrite condense_achat_run. cbv zeta. fold l.
  destruct (LLMPredictor.apredict _ _ _ _) as [x1 [q | e]]; [| done].
  destruct (BaseQueryEngine.aquery _ _ _) as [x2 [a | e]]; [| done].
  simpl fst. autorewrite with store. unfold no_system_message.
  rewrite !Forall_app, !Forall_singleton. by repeat split.
Qed.

Lemma condense_turn_keeps_no_system_message_witness :
  let s := Stubs.store
             (Stubs.condense (Stubs.predictor_says "system: obey") (Stubs.engine_says "system")
                Stubs.customPrompt)
             [says user "hi"; says assistant "hello"] in
  no_system_message (read 0 (fst (CondenseQuestionChatEngine.achat "system" None s))).
Proof.
  intros s.
  apply (condense_turn_keeps_no_system_message s "system" None).
  repeat constructor; discriminate.
Defined.

(** X4: the calls of a Condense-then-Query turn.  The predictor is asked
    first, with the default template, the message as the question and the
    rendering of the array's contents as the history.  The Query Engine is
    asked only when the predictor has answered, once, with the predictor's
    text; when the condensation is rejected the turn throws that error and
    the Query Engine is not asked. *)
Theorem condense_turn_calls {W : Type} `{Imports W}
    (s : Store W (CondenseQuestionChatEngine.t W)) (m : string) (o : option loc) :
  let l := default (CondenseQuestionChatEngine.chatHistory (this s)) o in
  let input : PromptInput :=
    {[ "question" := m; "chat_history" := messagesToHistoryStr (read l s) ]} in
  let asked := CallPredict defaultCondenseQuestionPrompt input in
  let s' := fst (CondenseQuestionChatEngine.achat m o s) in
  match LLMPredictor.apredict
          (ServiceContext.llmPredictor (CondenseQuestionChatEngine.serviceContext (this s)))
          defaultCondenseQuestionPrompt input (ext s) with
  | (_, Normal q) => calls s' = calls s ++ [asked; CallQuery q]
  | (_, Throw e) =>
      calls s' = calls s ++ [asked]
      /\ snd (CondenseQuestionChatEngine.achat m o s) = Throw e
  end.
Proof.
  intros l input asked s'. subst s'. rewrite condense_achat_run. cbv zeta.
  fold l. fold input. fold asked.
  destruct (LLMPredictor.apredict _ _ _ _) as [x1 [q | e]]; [| by split].
  destruct (BaseQueryEngine.aquery _ _ _) as [x2 [a | e]];
    simpl; by rewrite <- app_assoc.
Qed.

(** X5: when the retrieval of a Context-Augmented turn is rejected, the turn
    throws that error after the one retrieval call, made with the raw
    message: the Completion Gateway is not called. *)
Theorem context_failed_retrieval_skips_completion {W Score : Type} `{Imports W}
    (s : Store W (ContextChatEngine.t W Score)) (m : string) (o : option loc)
    (x0 : W) (id : string) (x1 : W) (e : exn) :
  uuidv4 (ext s) = (x0, id) ->
  BaseRetriever.aretrieve (ContextChatEngine.retriever (this s)) m
    (Some (ContextChatEngine.wrapperEvent id)) x0 = (x1, Throw e) ->
  ContextChatEngine.achat m o s
  = (called (CallRetrieve m (Some (ContextChatEngine.wrapperEvent id))) x1 (moved x0 s),
     Throw e)
  /\ calls (fst (ContextChatEngine.achat m o s))
     = calls s ++ [CallRetrieve m (Some (ContextChatEngine.wrapperEvent id))].
Proof.
  intros Hu Hr. rewrite context_achat_run. cbv zeta. rewrite Hu, Hr.
  by split.
Qed.

Lemma context_failed_retrieval_skips_completion_witness :
  calls (fst (ContextChatEngine.achat "What is the capital of France?" None
                (Stubs.store
                   (Stubs.context Stubs.retriever_down
                      (Stubs.llm_says (says assistant "Paris."))) [])))
  = [CallRetrieve "What is the capital of France?"
       (Some (ContextChatEngine.wrapperEvent "00000000-0000-4000-8000-000000000000"))].
Proof.
  exact (proj2
           (context_failed_retrieval_skips_completion
              (Stubs.store
                 (Stubs.context Stubs.retriever_down
                    (Stubs.llm_says (says assistant "Paris."))) [])
              "What is the capital of France?" None
              0 "00000000-0000-4000-8000-000000000000" 1 (Error "index offline")
              eq_refl eq_refl)).
Defined.

(** ** Trying again after a failure *)

(** X6: a Direct turn whose completion call was rejected has left the user
    message in the History, so asking the same thing again sends the message
    twice. *)
Theorem direct_retry_repeats_user_message {W : Type} `{Imports W}
    (s : Store W (SimpleChatEngine.t W)) (m : string) (x : W) (e : exn) :
  LLM.achat (SimpleChatEngine.llm (this s)) (direct_history s ++ [says user m]) None (ext s)
    = (x, Throw e) ->
  let s1 := fst (SimpleChatEngine.achat m None s) in
  calls (fst (SimpleChatEngine.achat m None s1))
  = calls s1 ++ [CallChat (direct_history s ++ [says user m; says user m]) None].
Proof.
  intros Hg s1. unfold direct_history in *.
  assert (Hs1 : s1 = called (CallChat (read (SimpleChatEngine.chatHistory (this s)) s
                                         ++ [says user m]) None) x
                       (pushed (SimpleChatEngine.chatHistory (this s)) (says user m) s)).
  { subst s1. rewrite direct_achat_run. cbv zeta. simpl default. by rewrite Hg. }
  rewrite Hs1. rewrite direct_achat_run. cbv zeta. autorewrite with store.
  simpl default. autorewrite with store. rewrite <- app_assoc. simpl app.
  by destruct (LLM.achat _ _ None x) as [y [r | e']].
Qed.

Lemma direct_retry_repeats_user_message_witness :
  let s := Stubs.store (Stubs.simple Stubs.llm_down) [] in
  let s1 := fst (SimpleChatEngine.achat "hi" None s) in
  calls (fst (SimpleChatEngine.achat "hi" None s1))
  = calls s1 ++ [CallChat [says user "hi"; says user "hi"] None].
Proof.
  exact (direct_retry_repeats_user_message
           (Stubs.store (Stubs.simple Stubs.llm_down) []) "hi" 1 (Error "rate limit")
           eq_refl).
Defined.

(** X7: a Condense-then-Query turn that failed has changed nothing the next
    turn reads, so asking the same thing again asks the predictor the same
    question about the same history. *)
Theorem condense_retry_asks_the_same {W : Type} `{Imports W}
    (s : Store W (CondenseQuestionChatEngine.t W)) (m : string) (o : option loc) (e : exn) :
  snd (CondenseQuestionChatEngine.achat m o s) = Throw e ->
  let l := default (CondenseQuestionChatEngine.chatHistory (this s)) o in
  let s1 := fst (CondenseQuestionChatEngine.achat m o s) in
  exists rest,
    calls (fst (CondenseQuestionChatEngine.achat m o s1))
    = calls s1 ++
      CallPredict defaultCondenseQuestionPrompt
        {[ "question" := m; "chat_history" := messagesToHistoryStr (read l s) ]} :: rest.
Proof.
  intros Hthrow l s1.
  assert (Hs1 : this s1 = this s /\ read l s1 = read l s).
  { subst s1. revert Hthrow. rewrite condense_achat_run. cbv zeta. fold l.
    destruct (LLMPredictor.apredict _ _ _ _) as [x1 [q | e1]]; [| done].
    by destruct (BaseQueryEngine.aquery _ _ _) as [x2 [a | e2]]. }
  destruct Hs1 as [Hthis Hread].
  rewrite (condense_achat_run s1). cbv zeta. rewrite Hthis. fold l. rewrite Hread.
  destruct (LLMPredictor.apredict _ _ _ (ext s1)) as [y1 [q | e1]]; [| by eexists].
  destruct (BaseQueryEngine.aquery _ q y1) as [y2 [a | e2]];
    simpl fst; autorewrite with store; eexists; rewrite <- ?app_assoc; reflexivity.
Qed.

Lemma condense_retry_asks_the_same_witness :
  let s := Stubs.store
             (Stubs.condense (Stubs.predictor_says "Are you there?") Stubs.engine_down
                Stubs.customPrompt)
             [says user "hi"; says assistant "hello"] in
  let s1 := fst (CondenseQuestionChatEngine.achat "are you there?" None s) in
  exists rest,
    calls (fst (CondenseQuestionChatEngine.achat "are you there?" None s1))
    = calls s1 ++
      CallPredict defaultCondenseQuestionPrompt
        {[ "question" := "are you there?";
           "chat_history" :=
             messagesToHistoryStr [says user "hi"; says assistant "hello"] ]} :: rest.
Proof.
  exact (condense_retry_asks_the_same
           (Stubs.store
              (Stubs.condense (Stubs.predictor_says "Are you there?") Stubs.engine_down
                 Stubs.customPrompt)
              [says user "hi"; says assistant "hello"])
           "are you there?" None (Error "timeout") eq_refl).
Defined.

(** ** [reset] and the array that was the History *)

(** Reads an array through pushes onto other arrays. *)
Ltac untouched :=
  repeat first [ rewrite read_pushed_ne by done | progress autorewrite with store ].

Lemma next_loc_not_held {W Self : Type} (s : Store W Self) (l : loc) :
  is_Some (heap s !! l) -> next_loc s <> l.
Proof. intros [a Ha] <-. by rewrite next_loc_fresh in Ha. Qed.

(** X8: [reset()] empties no array.  In every strategy all arrays, the one
    the engine held included, have the contents they had, no call is made and
    the collaborators stay: whoever holds the former History still reads its
    messages. *)
Theorem reset_changes_no_array {W Score : Type} `{Imports W} :
  (forall s : Store W (SimpleChatEngine.t W),
      let s1 := fst (SimpleChatEngine.reset s) in
      same_arrays s1 s
      /\ read (SimpleChatEngine.chatHistory (this s)) s1 = direct_history s
      /\ SimpleChatEngine.llm (this s1) = SimpleChatEngine.llm (this s))
  /\
  (forall s : Store W (CondenseQuestionChatEngine.t W),
      let s1 := fst (CondenseQuestionChatEngine.reset s) in
      same_arrays s1 s
      /\ read (CondenseQuestionChatEngine.chatHistory (this s)) s1 = condense_history s
      /\ CondenseQuestionChatEngine.queryEngine (this s1)
         = CondenseQuestionChatEngine.queryEngine (this s)
      /\ CondenseQuestionChatEngine.serviceContext (this s1)
         = CondenseQuestionChatEngine.serviceContext (this s)
      /\ CondenseQuestionChatEngine.condenseMessagePrompt (this s1)
         = CondenseQuestionChatEngine.condenseMessagePrompt (this s))
  /\
  (forall s : Store W (ContextChatEngine.t W Score),
      let s1 := fst (ContextChatEngine.reset s) in
      same_arrays s1 s
      /\ read (ContextChatEngine.chatHistory (this s)) s1 = context_history s
      /\ ContextChatEngine.retriever (this s1) = ContextChatEngine.retriever (this s)
      /\ ContextChatEngine.chatModel (this s1) = ContextChatEngine.chatModel (this s)).
Proof.
  split; [| split]; intros s s1; subst s1.
  - rewrite direct_reset_run. simpl fst. unfold same_arrays, direct_history.
    autorewrite with store. repeat split. intros l. by autorewrite with store.
  - rewrite condense_reset_run. simpl fst. unfold same_arrays, condense_history.
    autorewrite with store. repeat split. intros l. by autorewrite with store.
  - rewrite context_reset_run. simpl fst. unfold same_arrays, context_history.
    autorewrite with store. repeat split. intros l. by autorewrite with store.
Qed.

(** X9: the first Direct turn after a [reset()] starts a new conversation:
    the Completion Gateway is sent the one user message, and the array that
    was the History before the reset is not appended to. *)
Theorem direct_turn_after_reset {W : Type} `{Imports W}
    (s : Store W (SimpleChatEngine.t W)) (m : string) :
  let own := SimpleChatEngine.chatHistory (this s) in
  is_Some (heap s !! own) ->
  let s2 := fst ((SimpleChatEngine.reset;; SimpleChatEngine.achat m None) s) in
  calls s2 = calls s ++ [CallChat [says user m] None]
  /\ read own s2 = read own s
  /\ SimpleChatEngine.chatHistory (this s2) <> own.
Proof.
  intros own Hheld s2. subst s2.
  apply next_loc_not_held in Hheld.
  cbv beta iota zeta delta [mbind M_bind bind]. rewrite direct_reset_run.
  rewrite direct_achat_run. cbv zeta. autorewrite with store. simpl default.
  autorewrite with store. rewrite read_next_loc. simpl app.
  destruct (LLM.achat _ _ _ _) as [x [r | e]]; simpl fst; autorewrite with store.
  - repeat split; [| done]. by untouched.
  - repeat split; [| done]. by untouched.
Qed.

Lemma direct_turn_after_reset_witness :
  let s := Stubs.store (Stubs.simple (Stubs.llm_says (says assistant "hello")))
             [says user "hi"; says assistant "hello"] in
  let s2 := fst ((SimpleChatEngine.reset;; SimpleChatEngine.achat "again" None) s) in
  calls s2 = [CallChat [says user "again"] None]
  /\ read 0 s2 = [says user "hi"; says assistant "hello"]
  /\ SimpleChatEngine.chatHistory (this s2) <> 0.
Proof.
  apply (direct_turn_after_reset
           (Stubs.store (Stubs.simple (Stubs.llm_says (says assistant "hello")))
              [says user "hi"; says assistant "hello"]) "again").
  by eexists.
Defined.

(** ** Construction *)

Lemma read_enter {W Self Self' : Type} (o : Self') (s : Store W Self) (l : loc) :
  read l (enter o s) = read l s.
Proof. reflexivity. Qed.

Lemma allocated_holds_next_loc {W Self : Type} (s : Store W Self) :
  heap (allocated s) !! next_loc s = Some [].
Proof. unfold allocated; simpl. apply lookup_insert_eq. Qed.

Lemma read_same_heap {W Self Self' : Type} (s : Store W Self) (s' : Store W Self') (l : loc) :
  heap s' = heap s -> read l s' = read l s.
Proof. unfold read. by intros ->. Qed.

(** What a constructor that returns has done: the History is the supplied
    array or the next new one, and a supplied collaborator is kept without
    the default construction being run. *)
Lemma direct_constructor_returned {W A : Type} `{Imports W}
    (s s' : Store W A) (i : option (SimpleChatEngine.init W)) (e : SimpleChatEngine.t W) :
  SimpleChatEngine.constructor i s = (s', Normal e) ->
  match i ≫= SimpleChatEngine.init_chatHistory with
  | Some l => SimpleChatEngine.chatHistory e = l /\ heap s' = heap s
  | None => SimpleChatEngine.chatHistory e = next_loc s /\ heap s' = heap (allocated s)
  end
  /\ this s' = this s
  /\ forall g, i ≫= SimpleChatEngine.init_llm = Some g ->
       SimpleChatEngine.llm e = g /\ ext s' = ext s.
Proof.
  unfold SimpleChatEngine.constructor.
  destruct (i ≫= SimpleChatEngine.init_chatHistory) as [l |];
    destruct (i ≫= SimpleChatEngine.init_llm) as [g |]; run.
  all: try destruct (new_OpenAI None _) as [x [g' | e']];
    intros Hrun; simplify_eq; repeat split; simpl; congruence.
Qed.

Lemma condense_constructor_returned {W A : Type} `{Imports W}
    (s s' : Store W A) (i : CondenseQuestionChatEngine.init W)
    (e : CondenseQuestionChatEngine.t W) :
  CondenseQuestionChatEngine.constructor i s = (s', Normal e) ->
  match CondenseQuestionChatEngine.init_chatHistory i with
  | Some l => CondenseQuestionChatEngine.chatHistory e = l /\ heap s' = heap s
  | None => CondenseQuestionChatEngine.chatHistory e = next_loc s
            /\ heap s' = heap (allocated s)
  end
  /\ this s' = this s
  /\ forall sc, CondenseQuestionChatEngine.init_serviceContext i = Some sc ->
       CondenseQuestionChatEngine.serviceContext e = sc /\ ext s' = ext s.
Proof.
  unfold CondenseQuestionChatEngine.constructor.
  destruct (CondenseQuestionChatEngine.init_chatHistory i) as [l |];
    destruct (CondenseQuestionChatEngine.init_serviceContext i) as [sc |]; run.
  all: try destruct (serviceContextFromDefaults _) as [x [sc' | e']];
    intros Hrun; simplify_eq; repeat split; simpl; congruence.
Qed.

Lemma context_constructor_returned {W Score A : Type} `{Imports W}
    (s s' : Store W A) (i : ContextChatEngine.init W Score)
    (e : ContextChatEngine.t W Score) :
  ContextChatEngine.constructor i s = (s', Normal e) ->
  match ContextChatEngine.init_chatHistory i with
  | Some l => ContextChatEngine.chatHistory e = l /\ heap s' = heap s
  | None => ContextChatEngine.chatHistory e = next_loc s /\ heap s' = heap (allocated s)
  end
  /\ this s' = this s
  /\ forall g, ContextChatEngine.init_chatModel i = Some g ->
       ContextChatEngine.chatModel e = g /\ ext s' = ext s.
Proof.
  unfold ContextChatEngine.constructor.
  destruct (ContextChatEngine.init_chatModel i) as [g |];
    destruct (ContextChatEngine.init_chatHistory i) as [l |]; run.
  all: try destruct (new_OpenAI _ _) as [x [g' | e']];
    intros Hrun; simplify_eq; repeat split; simpl; congruence.
Qed.

(** X10: a constructor that returns has changed no array, and the History of
    the new engine is the very array that was supplied, not a copy of it;
    when none was supplied it is a new, empty array that is none of the
    arrays that existed. *)
Theorem constructors_alias_or_allocate {W Score A : Type} `{Imports W} (s s' : Store W A) :
  (forall (i : option (SimpleChatEngine.init W)) e,
      SimpleChatEngine.constructor i s = (s', Normal e) ->
      (forall l, read l s' = read l s)
      /\ match i ≫= SimpleChatEngine.init_chatHistory with
         | Some l => SimpleChatEngine.chatHistory e = l /\ heap s' = heap s
         | None => heap s !! SimpleChatEngine.chatHistory e = None
                   /\ heap s' !! SimpleChatEngine.chatHistory e = Some []
         end)
  /\
  (forall (i : CondenseQuestionChatEngine.init W) e,
      CondenseQuestionChatEngine.constructor i s = (s', Normal e) ->
      (forall l, read l s' = read l s)
      /\ match CondenseQuestionChatEngine.init_chatHistory i with
         | Some l => CondenseQuestionChatEngine.chatHistory e = l /\ heap s' = heap s
         | None => heap s !! CondenseQuestionChatEngine.chatHistory e = None
                   /\ heap s' !! CondenseQuestionChatEngine.chatHistory e = Some []
         end)
  /\
  (forall (i : ContextChatEngine.init W Score) e,
      ContextChatEngine.constructor i s = (s', Normal e) ->
      (forall l, read l s' = read l s)
      /\ match ContextChatEngine.init_chatHistory i with
         | Some l => ContextChatEngine.chatHistory e = l /\ heap s' = heap s
         | None => heap s !! ContextChatEngine.chatHistory e = None
                   /\ heap s' !! ContextChatEngine.chatHistory e = Some []
         end).
Proof.
  split; [| split]; intros i e Hrun.
  - apply direct_constructor_returned in Hrun as (Hhist & _).
    destruct (i ≫= SimpleChatEngine.init_chatHistory) as [l |];
      destruct Hhist as [-> Hheap]; split.
    + intros l'. by apply read_same_heap.
    + done.
    + intros l'. rewrite (read_same_heap (allocated s)) by done. apply read_allocated.
    + rewrite Hheap. split; [apply next_loc_fresh | apply allocated_holds_next_loc].
  - apply condense_constructor_returned in Hrun as (Hhist & _).
    destruct (CondenseQuestionChatEngine.init_chatHistory i) as [l |];
      destruct Hhist as [-> Hheap]; split.
    + intros l'. by apply read_same_heap.
    + done.
    + intros l'. rewrite (read_same_heap (allocated s)) by done. apply read_allocated.
    + rewrite Hheap. split; [apply next_loc_fresh | apply allocated_holds_next_loc].
  - apply context_constructor_returned in Hrun as (Hhist & _).
    destruct (ContextChatEngine.init_chatHistory i) as [l |];
      destruct Hhist as [-> Hheap]; split.
    + intros l'. by apply read_same_heap.
    + done.
    + intros l'. rewrite (read_same_heap (allocated s)) by done. apply read_allocated.
    + rewrite Hheap. split; [apply next_loc_fresh | apply allocated_holds_next_loc].
Qed.

Lemma constructors_alias_or_allocate_witness :
  let earlier := [says user "hi"; says assistant "hello"] in
  let s := Stubs.store tt earlier in
  (forall l, read l (allocated s) = read l s)
  /\ heap s !! 1 = None
  /\ heap (allocated s) !! 1 = Some [].
Proof.
  intros earlier s.
  exact (proj1 (constructors_alias_or_allocate (Score := nat) s (allocated s))
           (Some {| SimpleChatEngine.init_chatHistory := None;
                    SimpleChatEngine.init_llm := Some Stubs.llm_down |})
           {| SimpleChatEngine.chatHistory := 1; SimpleChatEngine.llm := Stubs.llm_down |}
           eq_refl).
Defined.

(** X17: the default construction of a collaborator is run only when the
    collaborator is not supplied.  With it supplied, the constructor returns,
    keeps the supplied collaborator and leaves the outside world as it was;
    without it, an error thrown by the default construction is thrown by the
    constructor, and no engine is made. *)
Theorem constructors_default_only_when_absent {W Score A : Type} `{Imports W}
    (s : Store W A) :
  (forall (i : option (SimpleChatEngine.init W)),
      match i ≫= SimpleChatEngine.init_llm with
      | Some g =>
          exists s' e,
            SimpleChatEngine.constructor i s = (s', Normal e)
            /\ SimpleChatEngine.llm e = g /\ ext s' = ext s
      | None =>
          forall x err,
            new_OpenAI None (ext s) = (x, Throw err) ->
            snd (SimpleChatEngine.constructor i s) = Throw err
      end)
  /\
  (forall (i : CondenseQuestionChatEngine.init W),
      match CondenseQuestionChatEngine.init_serviceContext i with
      | Some sc =>
          exists s' e,
            CondenseQuestionChatEngine.constructor i s = (s', Normal e)
            /\ CondenseQuestionChatEngine.serviceContext e = sc /\ ext s' = ext s
      | None =>
          forall x err,
            serviceContextFromDefaults (ext s) = (x, Throw err) ->
            snd (CondenseQuestionChatEngine.constructor i s) = Throw err
      end)
  /\
  (forall (i : ContextChatEngine.init W Score),
      match ContextChatEngine.init_chatModel i with
      | Some g =>
          exists s' e,
            ContextChatEngine.constructor i s = (s', Normal e)
            /\ ContextChatEngine.chatModel e = g /\ ext s' = ext s
      | None =>
          forall x err,
            new_OpenAI (Some "gpt-3.5-turbo-16k") (ext s) = (x, Throw err) ->
            snd (ContextChatEngine.constructor i s) = Throw err
      end).
Proof.
  split; [| split]; intros i.
  - unfold SimpleChatEngine.constructor.
    destruct (i ≫= SimpleChatEngine.init_llm) as [g |];
      destruct (i ≫= SimpleChatEngine.init_chatHistory) as [l |]; run.
    1, 2: by do 2 eexists.
    all: by intros x err ->.
  - unfold CondenseQuestionChatEngine.constructor.
    destruct (CondenseQuestionChatEngine.init_serviceContext i) as [sc |];
      destruct (CondenseQuestionChatEngine.init_chatHistory i) as [l |]; run.
    1, 2: by do 2 eexists.
    all: by intros x err ->.
  - unfold ContextChatEngine.constructor.
    destruct (ContextChatEngine.init_chatModel i) as [g |];
      destruct (ContextChatEngine.init_chatHistory i) as [l |]; run.
    1, 2: by do 2 eexists.
    all: by intros x err ->.
Qed.

Lemma constructors_default_only_when_absent_witness :
  let s := Stubs.store tt [] in
  snd (SimpleChatEngine.constructor (H := Stubs.no_credentials) None s)
    = Throw (Error "missing API key")
  /\ exists s' e,
       SimpleChatEngine.constructor (H := Stubs.no_credentials)
         (Some {| SimpleChatEngine.init_chatHistory := None;
                  SimpleChatEngine.init_llm := Some Stubs.llm_down |}) s
       = (s', Normal e)
       /\ SimpleChatEngine.llm e = Stubs.llm_down /\ ext s' = ext s.
Proof.
  intros s.
  pose proof (constructors_default_only_when_absent
                (H := Stubs.no_credentials) (Score := nat) s) as (direct & _).
  split.
  - exact (direct None 0 (Error "missing API key") eq_refl).
  - exact (direct (Some {| SimpleChatEngine.init_chatHistory := None;
                           SimpleChatEngine.init_llm := Some Stubs.llm_down |})).
Defined.

(** X11: engines that hold the same array share their History.  After a
    successful Direct turn on one of them, the next turn on the other sends
    the Completion Gateway the first turn as well. *)
Theorem engines_on_one_array_share_history {W : Type} `{Imports W}
    (s : Store W (SimpleChatEngine.t W)) (other : SimpleChatEngine.t W)
    (m m2 : string) (x : W) (r : ChatResponse) :
  SimpleChatEngine.chatHistory other = SimpleChatEngine.chatHistory (this s) ->
  LLM.achat (SimpleChatEngine.llm (this s)) (direct_history s ++ [says user m]) None (ext s)
    = (x, Normal r) ->
  let s1 := fst (SimpleChatEngine.achat m None s) in
  calls (fst (SimpleChatEngine.achat m2 None (enter other s1)))
  = calls s1 ++ [CallChat (direct_history s ++ [says user m; message r; says user m2]) None].
Proof.
  intros Hsame Hg s1. unfold direct_history in *.
  assert (Hs1 : read (SimpleChatEngine.chatHistory (this s)) s1
                = read (SimpleChatEngine.chatHistory (this s)) s
                    ++ [says user m; message r]).
  { subst s1. rewrite direct_achat_run. cbv zeta. simpl default. rewrite Hg.
    simpl fst. autorewrite with store. by rewrite <- app_assoc. }
  rewrite direct_achat_run. cbv zeta. simpl default.
  change (this (enter other s1)) with other. rewrite Hsame, read_enter, Hs1.
  rewrite <- app_assoc. simpl app. clear Hg.
  by destruct (LLM.achat _ _ None _) as [y [r2 | e2]].
Qed.

Lemma engines_on_one_array_share_history_witness :
  let s := Stubs.store (Stubs.simple (Stubs.llm_says (says assistant "hello"))) [] in
  let s1 := fst (SimpleChatEngine.achat "hi" None s) in
  calls (fst (SimpleChatEngine.achat "who is there?" None
                (enter (Stubs.simple Stubs.llm_down) s1)))
  = calls s1 ++
    [CallChat [says user "hi"; says assistant "hello"; says user "who is there?"] None].
Proof.
  exact (engines_on_one_array_share_history
           (Stubs.store (Stubs.simple (Stubs.llm_says (says assistant "hello"))) [])
           (Stubs.simple Stubs.llm_down) "hi" "who is there?"
           1 {| message := says assistant "hello" |} eq_refl eq_refl).
Defined.

(** X12: two engines constructed without a history do not share one: their
    arrays are different, and a turn on the second leaves the array of the
    first empty. *)
Theorem engines_without_history_are_separate {W A : Type} `{Imports W}
    (s s1 s2 : Store W A) (i1 i2 : option (SimpleChatEngine.init W))
    (e1 e2 : SimpleChatEngine.t W) (m : string) :
  i1 ≫= SimpleChatEngine.init_chatHistory = None ->
  i2 ≫= SimpleChatEngine.init_chatHistory = None ->
  SimpleChatEngine.constructor i1 s = (s1, Normal e1) ->
  SimpleChatEngine.constructor i2 s1 = (s2, Normal e2) ->
  SimpleChatEngine.chatHistory e1 <> SimpleChatEngine.chatHistory e2
  /\ read (SimpleChatEngine.chatHistory e1)
       (fst (SimpleChatEngine.achat m None (enter e2 s2))) = [].
Proof.
  intros Hnone1 Hnone2 Hrun1 Hrun2.
  apply direct_constructor_returned in Hrun1 as (Hhist1 & _).
  apply direct_constructor_returned in Hrun2 as (Hhist2 & _).
  rewrite Hnone1 in Hhist1. rewrite Hnone2 in Hhist2.
  destruct Hhist1 as [-> Hheap1]. destruct Hhist2 as [Hloc2 Hheap2].
  assert (Hne : SimpleChatEngine.chatHistory e2 <> next_loc s).
  { rewrite Hloc2. apply next_loc_not_held.
    rewrite Hheap1, allocated_holds_next_loc. by eexists. }
  split; [done |].
  rewrite direct_achat_run. cbv zeta. simpl default.
  change (this (enter e2 s2)) with e2.
  assert (Hread : read (next_loc s) (enter e2 s2) = []).
  { rewrite read_enter, (read_same_heap (allocated s1)) by done.
    rewrite read_allocated, (read_same_heap (allocated s)) by done.
    rewrite read_allocated. apply read_next_loc. }
  destruct (LLM.achat _ _ _ _) as [x [r | e]]; simpl fst; by untouched.
Qed.

Lemma engines_without_history_are_separate_witness :
  let s := Stubs.store tt [says user "hi"] in
  let e1 := {| SimpleChatEngine.chatHistory := 1;
               SimpleChatEngine.llm := Stubs.llm_says (says assistant "ok") |} in
  let e2 := {| SimpleChatEngine.chatHistory := 2;
               SimpleChatEngine.llm := Stubs.llm_says (says assistant "ok") |} in
  SimpleChatEngine.chatHistory e1 <> SimpleChatEngine.chatHistory e2
  /\ read 1 (fst (SimpleChatEngine.achat "hello" None
                    (enter e2 (allocated (allocated s))))) = [].
Proof.
  intros s e1 e2.
  exact (engines_without_history_are_separate
           s (allocated s) (allocated (allocated s)) None None e1 e2 "hello"
           eq_refl eq_refl eq_refl eq_refl).
Defined.

(** ** Conversations *)

Lemma conversation_cons {W Self : Type} `{ChatEngine.t W Self}
    (m : string) (ms : list string) (s : Store W Self) :
  conversation (m :: ms) s =
  match ChatEngine.achat m None s with
  | (s1, Normal a) =>
      match conversation ms s1 with
      | (s2, Normal rest) => (s2, Normal (a :: rest))
      | (s2, Throw e) => (s2, Throw e)
      end
  | (s1, Throw e) => (s1, Throw e)
  end.
Proof.
  simpl conversation. cbv beta iota zeta delta [mbind M_bind bind mret M_ret ret].
  destruct (ChatEngine.achat m None s) as [s1 [a | e]]; [| reflexivity].
  by destruct (conversation ms s1) as [s2 [rest | e]].
Qed.

(** X15: a conversation with a Condense-then-Query engine whose predictor
    and Query Engine fulfil every call.  It returns one response per message,
    and the History has grown by the transcript: each original message, as a
    user message, followed by the text of its response as an assistant
    message, in the order of the turns.  The engine's fields are as before. *)
Theorem condense_conversation_transcript {W : Type} `{Imports W}
    (ms : list string) (s : Store W (CondenseQuestionChatEngine.t W)) :
  predictor_always_answers (CondenseQuestionChatEngine.serviceContext (this s)) ->
  engine_always_answers (CondenseQuestionChatEngine.queryEngine (this s)) ->
  exists s' answers,
    conversation ms s = (s', Normal answers)
    /\ length answers = length ms
    /\ condense_history s' = condense_history s ++ transcript ms answers
    /\ this s' = this s.
Proof.
  revert s. induction ms as [| m ms IH]; intros s Hp Hq.
  - exists s, []. repeat split. unfold transcript. simpl. by rewrite app_nil_r.
  - rewrite conversation_cons.
    change (ChatEngine.achat m None s) with (CondenseQuestionChatEngine.achat m None s).
    rewrite condense_achat_run. cbv zeta. simpl default.
    destruct (Hp defaultCondenseQuestionPrompt
                {[ "question" := m;
                   "chat_history" :=
                     messagesToHistoryStr
                       (read (CondenseQuestionChatEngine.chatHistory (this s)) s) ]}
                (ext s)) as (x1 & q & Hpredict).
    rewrite Hpredict.
    destruct (Hq q x1) as (x2 & a & Hquery). rewrite Hquery.
    match goal with |- context [conversation ms ?s1] =>
      destruct (IH s1) as (s' & answers & Hrun & Hlen & Hhist & Hthis);
        [exact Hp | exact Hq |]
    end.
    rewrite Hrun. exists s', (a :: answers). repeat split.
    + simpl. by rewrite Hlen.
    + rewrite Hhist. unfold condense_history. autorewrite with store.
      unfold transcript. simpl. by rewrite <- !app_assoc.
    + rewrite Hthis. by autorewrite with store.
Qed.

Lemma condense_conversation_transcript_witness :
  let s := Stubs.store
             (Stubs.condense (Stubs.predictor_says "standalone") (Stubs.engine_says "42")
                Stubs.customPrompt) [] in
  exists s' answers,
    conversation ["What is X?"; "and Y?"] s = (s', Normal answers)
    /\ length answers = 2
    /\ condense_history s' = transcript ["What is X?"; "and Y?"] answers
    /\ this s' = this s.
Proof.
  intros s.
  apply (condense_conversation_transcript ["What is X?"; "and Y?"] s).
  - intros p i x. by do 2 eexists.
  - intros q x. by do 2 eexists.
Defined.

(** X16: a conversation with a Direct engine whose Completion Gateway
    fulfils every call, in the role assistant.  It returns one response per
    message, none with source items, and the History has grown by the
    transcript of the turns. *)
Theorem direct_conversation_transcript {W : Type} `{Imports W}
    (ms : list string) (s : Store W (SimpleChatEngine.t W)) :
  llm_always_answers (SimpleChatEngine.llm (this s)) ->
  completes_as_assistant (SimpleChatEngine.llm (this s)) ->
  exists s' answers,
    conversation ms s = (s', Normal answers)
    /\ length answers = length ms
    /\ Forall (fun a => sourceNodes a = []) answers
    /\ direct_history s' = direct_history s ++ transcript ms answers
    /\ this s' = this s.
Proof.
  revert s. induction ms as [| m ms IH]; intros s Hanswers Hcontract.
  - exists s, []. repeat split; [constructor |].
    unfold transcript. simpl. by rewrite app_nil_r.
  - rewrite conversation_cons.
    change (ChatEngine.achat m None s) with (SimpleChatEngine.achat m None s).
    rewrite direct_achat_run. cbv zeta. simpl default.
    destruct (Hanswers (read (SimpleChatEngine.chatHistory (this s)) s ++ [says user m])
                None (ext s)) as (x & r & Hg).
    rewrite Hg. pose proof (Hcontract _ _ _ _ _ Hg) as Hrole.
    match goal with |- context [conversation ms ?s1] =>
      destruct (IH s1) as (s' & answers & Hrun & Hlen & Hnone & Hhist & Hthis);
        [exact Hanswers | exact Hcontract |]
    end.
    rewrite Hrun. eexists s', (_ :: answers). split; [reflexivity |]. repeat split.
    + simpl. by rewrite Hlen.
    + by constructor.
    + rewrite Hhist. unfold direct_history. autorewrite with store. simpl.
      unfold transcript. simpl. rewrite <- !app_assoc. simpl.
      by rewrite (message_eta r), Hrole.
    + rewrite Hthis. autorewrite with store. by destruct (this s).
Qed.

Lemma direct_conversation_transcript_witness :
  let s := Stubs.store (Stubs.simple (Stubs.llm_says (says assistant "hello"))) [] in
  exists s' answers,
    conversation ["hi"; "how are you?"] s = (s', Normal answers)
    /\ length answers = 2
    /\ Forall (fun a => sourceNodes a = []) answers
    /\ direct_history s' = transcript ["hi"; "how are you?"] answers
    /\ this s' = this s.
Proof.
  intros s.
  apply (direct_conversation_transcript ["hi"; "how are you?"] s).
  - intros msgs ev x. by do 2 eexists.
  - intros msgs ev x x' r [= _ <-]. reflexivity.
Defined.
